(** * Review preprocessing pipeline (scripts/preprocessing.py)

    A shallow embedding of [ReviewPreprocessor] and of the configuration
    tables it reads (scripts/config.py), followed by the properties of the
    cleaning pipeline.

    Modelling choices, fixed once for the whole development:
    - a pandas DataFrame is an ordered list of column names together with
      a list of labelled rows; a row maps column names to cells;
    - a cell is a dynamically typed Python value: a null (NaN, None and
      NaT are not told apart, as [pd.isna] does not), an integer, a finite
      float (an exact rational, no rounding), a string, or a
      [datetime.date];
    - the parsers of pandas ([pd.to_numeric] and [pd.to_datetime] on a
      string) and the float printer of Python are an interface
      ([PandasEnv]); nothing is assumed about them;
    - the file system is an input of [process]: what [pd.read_csv]
      produced (or its failure), and whether [to_csv] succeeds. *)

From Stdlib Require Import ZArith QArith Qround Ascii String List Sorted Permutation Lia.
From stdpp Require Import gmap strings list fin_maps sorting.

Local Open Scope string_scope.
Local Open Scope list_scope.
Local Open Scope nat_scope.

(** ** Python values *)

Record date := Date { year : Z; month : Z; day : Z }.

(** A pandas Timestamp: a calendar date and the time of day. *)
Record datetime := Timestamp { dt_date : date; dt_time : Z }.

Inductive value :=
| VNull
| VInt (z : Z)
| VFloat (q : Q)
| VStr (s : string)
| VDate (d : date).

(** [pd.isna] *)
Definition isna (v : value) : bool :=
  match v with VNull => true | _ => false end.

(** [Series.fillna(x)] on one cell *)
Definition fillna (x v : value) : value :=
  if isna v then x else v.

(** Interface to the parts of pandas and Python that the pipeline calls
    on data it does not control. *)
Class PandasEnv := {
  (** [pd.to_numeric(s, errors='coerce')] on a string: [None] is NaN *)
  numeric_of_string : string → option Q;
  (** [pd.to_datetime(s, errors='coerce')] on a string: [None] is NaT *)
  datetime_of_string : string → option datetime;
  (** [pd.to_datetime(x, errors='coerce')] on a number *)
  datetime_of_number : Q → option datetime;
  (** [str(x)] on a float *)
  str_of_float : Q → string
}.

(** ** Dates *)

Definition date_compare (a b : date) : comparison :=
  match (year a ?= year b)%Z with
  | Eq => match (month a ?= month b)%Z with
          | Eq => (day a ?= day b)%Z
          | c => c
          end
  | c => c
  end.

Definition midnight (d : date) : datetime := Timestamp d 0.

(** ** Strings *)

(** [str.isspace] on an ASCII character; the class [\s] of [re] is the
    same one. *)
Definition is_space (c : ascii) : bool :=
  let n := nat_of_ascii c in
  ((9 <=? n) && (n <=? 13)) || ((28 <=? n) && (n <=? 32)).

(** [re.sub(r'\s+', ' ', s)]: [in_run] tells that the previous character
    was whitespace, whose run has been replaced already. *)
Fixpoint collapse_from (in_run : bool) (s : string) : string :=
  match s with
  | EmptyString => EmptyString
  | String c s' =>
      if is_space c
      then (if in_run then collapse_from true s'
            else String " "%char (collapse_from true s'))
      else String c (collapse_from false s')
  end.

Definition collapse_whitespace (s : string) : string := collapse_from false s.

Fixpoint lstrip (s : string) : string :=
  match s with
  | EmptyString => EmptyString
  | String c s' => if is_space c then lstrip s' else s
  end.

(** Strips trailing whitespace: a character is kept when it is not
    whitespace or when something is left after it. *)
Fixpoint rstrip (s : string) : string :=
  match s with
  | EmptyString => EmptyString
  | String c s' =>
      match rstrip s' with
      | EmptyString => if is_space c then EmptyString else String c EmptyString
      | t => String c t
      end
  end.

(** [str.strip()] *)
Definition strip (s : string) : string := rstrip (lstrip s).

Definition digit_char (n : nat) : ascii := ascii_of_nat (48 + n).

Fixpoint digits_fuel (fuel : nat) (n : N) (acc : string) : string :=
  match fuel with
  | O => acc
  | S fuel' =>
      let acc' := String (digit_char (N.to_nat (n mod 10))) acc in
      if (n <? 10)%N then acc' else digits_fuel fuel' (n / 10)%N acc'
  end.

(** [str(n)] on an integer *)
Definition str_of_Z (z : Z) : string :=
  let n := Z.to_N (Z.abs z) in
  let body := digits_fuel (S (N.to_nat (N.log2 n))) n EmptyString in
  if (z <? 0)%Z then String "-"%char body else body.

Definition zero_pad (width : nat) (s : string) : string :=
  match width - String.length s with
  | O => s
  | S k => String.concat "" (List.repeat "0" (S k)) +:+ s
  end.

(** [str(d)] on a [datetime.date]: ISO format *)
Definition str_of_date (d : date) : string :=
  zero_pad 4 (str_of_Z (year d)) +:+ "-" +:+ zero_pad 2 (str_of_Z (month d))
  +:+ "-" +:+ zero_pad 2 (str_of_Z (day d)).

(** ** Order on cells, as [sort_values] sees it

    Python compares strings by code point and dates by calendar order.
    Comparing values of different types raises a [TypeError] in Python;
    at the one place where the pipeline sorts, each key column holds
    values of one type only (see [process_keys_typed]), so the rank used
    across types here is never consulted. *)

Definition value_rank (v : value) : Z :=
  match v with
  | VInt _ => 0 | VFloat _ => 1 | VStr _ => 2 | VDate _ => 3 | VNull => 4
  end%Z.

Definition value_compare (a b : value) : comparison :=
  match a, b with
  | VInt x, VInt y => (x ?= y)%Z
  | VFloat x, VFloat y => (x ?= y)%Q
  | VStr x, VStr y => String.compare x y
  | VDate x, VDate y => date_compare x y
  | _, _ => (value_rank a ?= value_rank b)%Z
  end.

(** ** DataFrames *)

Abbreviation row := (gmap string value).

Record DataFrame := { columns : list string; rows : list (nat * row) }.

(** [c in df.columns] *)
Definition has_column (c : string) (df : DataFrame) : bool :=
  bool_decide (c ∈ columns df).

(** The cell of a row in a column. *)
Definition cell (c : string) (r : row) : value := default VNull (r !! c).

(** [len(df)] *)
Definition len (df : DataFrame) : nat := length (rows df).

(** [df[c] = f(row)]: an existing column is overwritten in place, a new
    one is appended. *)
Definition assign (c : string) (f : row → value) (df : DataFrame) : DataFrame :=
  {| columns := if has_column c df then columns df else (columns df ++ [c])%list;
     rows := (λ ir : nat * row, (ir.1, <[c := f ir.2]> ir.2)) <$> rows df |}.

(** [df[mask]]: boolean indexing keeps the labels of the rows. *)
Definition select_rows (p : row → bool) (df : DataFrame) : DataFrame :=
  {| columns := columns df;
     rows := filter (λ ir : nat * row, p ir.2) (rows df) |}.

(** [df.dropna(subset=cols)] *)
Definition dropna (cols : list string) (df : DataFrame) : DataFrame :=
  select_rows (λ r, forallb (λ c, negb (isna (cell c r))) cols) df.

(** [df.loc[:, cols]] *)
Definition loc_columns (cols : list string) (df : DataFrame) : DataFrame :=
  {| columns := cols;
     rows := (λ ir : nat * row,
                (ir.1, filter (λ kv : string * value, kv.1 ∈ cols) ir.2))
             <$> rows df |}.

(** [df.reset_index(drop=True)] *)
Definition reset_index (df : DataFrame) : DataFrame :=
  {| columns := columns df;
     rows := zip (seq 0 (length (rows df))) (snd <$> rows df) |}.

(** Keys of [sort_values]: column and whether it is ascending. *)
Fixpoint row_leb (keys : list (string * bool)) (a b : row) : bool :=
  match keys with
  | [] => true
  | (c, asc) :: keys' =>
      match value_compare (cell c a) (cell c b) with
      | Lt => asc
      | Gt => negb asc
      | Eq => row_leb keys' a b
      end
  end.

Section StableSort.
Context {A : Type} (leb : A → A → bool).

Fixpoint insert_sorted (x : A) (l : list A) : list A :=
  match l with
  | [] => [x]
  | y :: l' => if leb x y then x :: l else y :: insert_sorted x l'
  end.

(** Insertion from the right: of two elements that tie, the one that
    came first stays first. *)
Fixpoint stable_sort (l : list A) : list A :=
  match l with
  | [] => []
  | x :: l' => insert_sorted x (stable_sort l')
  end.
End StableSort.

(** [df.sort_values(cols, ascending=...)]: rows that tie keep their
    order (pandas sorts several keys with a stable lexsort). *)
Definition sort_values (keys : list (string * bool)) (df : DataFrame) : DataFrame :=
  {| columns := columns df;
     rows := stable_sort (λ a b : nat * row, row_leb keys a.2 b.2) (rows df) |}.

(** ** Configuration (scripts/config.py) *)

(** [APP_IDS], in source order. The package names are the defaults of
    the environment variables; the pipeline reads the keys only. *)
Definition APP_IDS : list (string * string) :=
  [ ("CBE", "com.combanketh.mobilebanking");
    ("BOA", "com.boa.boaMobileBanking");
    ("Dashen", "com.dashen.dashensuperapp") ].

(** [BANK_NAMES], in source order. *)
Definition BANK_NAMES : list (string * string) :=
  [ ("CBE", "Commercial Bank of Ethiopia");
    ("BOA", "Bank of Abyssinia");
    ("Dashen", "Dashen Bank") ].

(** A Python dict built from its items: a later item overwrites an
    earlier one with the same key. *)
Definition dict_of_items (items : list (string * string)) : gmap string string :=
  foldl (λ m kv, <[kv.1 := kv.2]> m) ∅ items.

(** [Series.map(d)] on one cell: a value that is not a key gives NaN. *)
Definition map_dict (d : gmap string string) (v : value) : value :=
  match v with
  | VStr s => match d !! s with Some x => VStr x | None => VNull end
  | _ => VNull
  end.

(** [Series.isin(s)] on one cell *)
Definition isin (s : gset string) (v : value) : bool :=
  match v with
  | VStr x => bool_decide (x ∈ s)
  | _ => false
  end.

(** ** Exceptions *)

Inductive exn :=
| KeyError (key : string)
| AttributeError (attr : string).

Inductive result (A : Type) :=
| Ok (a : A)
| Raise (e : exn).
Arguments Ok {A} a.
Arguments Raise {A} e.

#[global] Instance result_ret : MRet result := λ A a, Ok a.
#[global] Instance result_bind : MBind result := λ A B f m,
  match m with
  | Ok a => f a
  | Raise e => Raise e
  end.

(** ** The preprocessor *)

(** A value of [self.stats]. *)
Inductive stat :=
| Count (n : nat)
| PerColumn (m : gmap string nat).

Record ReviewPreprocessor := {
  df : option DataFrame;
  stats : gmap string stat;
  allowed_bank_codes : gset string
}.

Definition set_df (d : DataFrame) (self : ReviewPreprocessor) : ReviewPreprocessor :=
  {| df := Some d; stats := stats self;
     allowed_bank_codes := allowed_bank_codes self |}.

(** [self.stats[k] = n] *)
Definition set_stat (k : string) (v : stat) (self : ReviewPreprocessor) : ReviewPreprocessor :=
  {| df := df self; stats := <[k := v]> (stats self);
     allowed_bank_codes := allowed_bank_codes self |}.

(** [self.stats.get(k, 0)] *)
Definition stats_get (k : string) (self : ReviewPreprocessor) : nat :=
  match stats self !! k with
  | Some (Count n) => n
  | _ => 0
  end.

(** Reading [self.df] while it is still [None] fails on the first
    attribute access. *)
Definition with_df {A} (self : ReviewPreprocessor) (k : DataFrame → result A) : result A :=
  match df self with
  | Some d => k d
  | None => Raise (AttributeError "columns")
  end.

(** [__init__] *)
Definition init : ReviewPreprocessor :=
  {| df := None;
     stats := ∅;
     allowed_bank_codes :=
       match APP_IDS with
       | [] => list_to_set (fst <$> BANK_NAMES)
       | _ => list_to_set (fst <$> APP_IDS)
       end |}.

(** [load_data]: [file] is what [pd.read_csv] returned, [None] when it
    raised (both handlers return [False]). *)
Definition load_data (file : option DataFrame) (self : ReviewPreprocessor)
  : bool * ReviewPreprocessor :=
  match file with
  | Some d => (true, set_stat "original_count" (Count (len d)) (set_df d self))
  | None => (false, self)
  end.

(** [df.isnull().sum()] for one column *)
Definition null_count (c : string) (d : DataFrame) : nat :=
  length (filter (λ ir : nat * row, isna (cell c ir.2)) (rows d)).

(** [check_missing_data]: apart from printing, it records the null
    counts per column. *)
Definition check_missing_data (self : ReviewPreprocessor) : result ReviewPreprocessor :=
  with_df self (λ d,
    let missing : gmap string nat :=
      list_to_map ((λ c, (c, null_count c d)) <$> columns d) in
    Ok (set_stat "missing_before" (PerColumn missing) self)).

(** The first step of [handle_missing_values]: a table with a
    [bank_name] column and no [bank_code] column gets its [bank_code]
    by the inverse of [BANK_NAMES]; [self.df.get('bank_code', np.nan)]
    is NaN there. *)
Definition derive_bank_code (d : DataFrame) : DataFrame :=
  if negb (has_column "bank_code" d) && has_column "bank_name" d
  then
    let inverse := dict_of_items (prod_swap <$> BANK_NAMES) in
    assign "bank_code"
           (λ r, fillna VNull (map_dict inverse (cell "bank_name" r))) d
  else d.

(** [handle_missing_values] *)
Definition handle_missing_values (self : ReviewPreprocessor) : result ReviewPreprocessor :=
  with_df self (λ d,
    let d := derive_bank_code d in
    let critical_cols :=
      filter (λ c, has_column c d) ["review_text"; "rating"; "bank_code"] in
    let before_count := len d in
    let d := match critical_cols with
             | [] => d
             | _ => dropna critical_cols d
             end in
    let removed := before_count - len d in
    let d := if has_column "user_name" d
             then assign "user_name" (λ r, fillna (VStr "Anonymous") (cell "user_name" r)) d
             else assign "user_name" (λ _, VStr "Anonymous") d in
    let d := if has_column "thumbs_up" d
             then assign "thumbs_up" (λ r, fillna (VInt 0) (cell "thumbs_up" r)) d
             else assign "thumbs_up" (λ _, VInt 0) d in
    let d := if has_column "reply_content" d
             then assign "reply_content" (λ r, fillna (VStr "") (cell "reply_content" r)) d
             else assign "reply_content" (λ _, VStr "") d in
    Ok (set_stat "count_after_missing" (Count (len d))
         (set_stat "rows_removed_missing" (Count removed) (set_df d self)))).

(** [x < n], [x > n], ... on one cell of an integer column *)
Definition int_test (p : Z → bool) (v : value) : bool :=
  match v with
  | VInt z => p z
  | _ => false
  end.

(** [Series.str.len()] on one cell: NaN unless the cell is a string *)
Definition str_len (v : value) : value :=
  match v with
  | VStr s => VInt (Z.of_nat (String.length s))
  | _ => VNull
  end.

(** [v == ''] *)
Definition is_empty_str (v : value) : bool :=
  match v with
  | VStr EmptyString => true
  | _ => false
  end.

(** [astype(int)] on a finite float: the fraction is cut off. *)
Definition astype_int (q : Q) : Z := Z.quot (Qnum q) (Z.pos (Qden q)).

Section Stages.
Context `{env : PandasEnv}.

(** [pd.to_datetime(v, errors='coerce')] on one cell *)
Definition to_datetime (v : value) : option datetime :=
  match v with
  | VNull => None
  | VInt z => datetime_of_number (inject_Z z)
  | VFloat q => datetime_of_number q
  | VStr s => datetime_of_string s
  | VDate d => Some (midnight d)
  end.

(** [pd.to_numeric(v, errors='coerce')] on one cell *)
Definition to_numeric (v : value) : option Q :=
  match v with
  | VInt z => Some (inject_Z z)
  | VFloat q => Some q
  | VStr s => numeric_of_string s
  | VNull | VDate _ => None
  end.

(** [str(v)] *)
Definition py_str (v : value) : string :=
  match v with
  | VNull => "nan"
  | VInt z => str_of_Z z
  | VFloat q => str_of_float q
  | VStr s => s
  | VDate d => str_of_date d
  end.

(** [normalize_dates]. The datetime64 column that the source keeps
    between [pd.to_datetime] and [.dt.date] is the per-row result
    [to_datetime]: its NaT rows are the ones [dropna] removes. Nothing
    in the [try] block raises on the values modelled here. *)
Definition normalize_dates (self : ReviewPreprocessor) : result ReviewPreprocessor :=
  with_df self (λ d,
    if negb (has_column "review_date" d) then Ok self
    else
      let d := select_rows (λ r, bool_decide (is_Some (to_datetime (cell "review_date" r)))) d in
      let d := assign "review_date"
                 (λ r, from_option (λ t, VDate (dt_date t)) VNull
                         (to_datetime (cell "review_date" r))) d in
      let d := assign "review_year"
                 (λ r, from_option (λ t, VInt (year (dt_date t))) VNull
                         (to_datetime (cell "review_date" r))) d in
      let d := assign "review_month"
                 (λ r, from_option (λ t, VInt (month (dt_date t))) VNull
                         (to_datetime (cell "review_date" r))) d in
      Ok (set_df d self)).

(** The local function [clean_review_text] of [clean_text] *)
Definition clean_review_text (text : value) : string :=
  if isna text || is_empty_str text then ""
  else strip (collapse_whitespace (py_str text)).

(** [clean_text]: [self.df['review_text']] raises when the column is
    missing. *)
Definition clean_text (self : ReviewPreprocessor) : result ReviewPreprocessor :=
  with_df self (λ d,
    if negb (has_column "review_text" d) then Raise (KeyError "review_text")
    else
      let d := assign "review_text"
                 (λ r, VStr (clean_review_text (cell "review_text" r))) d in
      let before_count := len d in
      let d := select_rows
                 (λ r, int_test (λ z, 0 <? z)%Z (str_len (cell "review_text" r))) d in
      let removed := before_count - len d in
      let d := assign "text_length" (λ r, str_len (cell "review_text" r)) d in
      Ok (set_stat "count_after_cleaning" (Count (len d))
           (set_stat "empty_reviews_removed" (Count removed) (set_df d self)))).

(** [pd.to_numeric(...).fillna(0).astype(int)] on one cell *)
Definition coerce_rating (v : value) : value :=
  VInt (astype_int (default 0%Q (to_numeric v))).

(** [validate_ratings] *)
Definition validate_ratings (self : ReviewPreprocessor) : result ReviewPreprocessor :=
  with_df self (λ d,
    if negb (has_column "rating" d) then Ok self
    else
      let d := assign "rating" (λ r, coerce_rating (cell "rating" r)) d in
      let invalid :=
        select_rows (λ r, int_test (λ z, z <? 1)%Z (cell "rating" r)
                          || int_test (λ z, 5 <? z)%Z (cell "rating" r)) d in
      let d := if 0 <? len invalid
               then select_rows
                      (λ r, int_test (λ z, 1 <=? z)%Z (cell "rating" r)
                            && int_test (λ z, z <=? 5)%Z (cell "rating" r)) d
               else d in
      Ok (set_stat "invalid_ratings_removed" (Count (len invalid)) (set_df d self))).

Definition desired : list string :=
  ["review_id"; "review_text"; "rating"; "review_date"; "bank_code";
   "bank_name"; "source"].

Definition optional_extras : list string :=
  ["user_name"; "thumbs_up"; "text_length"; "review_year"; "review_month"].

(** [l.insert(i, x)]: past the end, [x] is appended. *)
Definition list_insert_at {A} (i : nat) (x : A) (l : list A) : list A :=
  (take i l ++ x :: drop i l)%list.

(** The loop that creates the selected columns the table lacks. *)
Definition ensure_columns (cols : list string) (d : DataFrame) : DataFrame :=
  foldl (λ d col, if has_column col d then d else assign col (λ _, VNull) d) d cols.

(** [prepare_final_output] *)
Definition prepare_final_output (self : ReviewPreprocessor) : result ReviewPreprocessor :=
  with_df self (λ d,
    let extras := filter (λ c, has_column c d) optional_extras in
    let output_columns := filter (λ c, has_column c d) (desired ++ extras)%list in
    let '(d, output_columns) :=
      if negb (has_column "bank_name" d) && has_column "bank_code" d
      then
        (assign "bank_name"
           (λ r, fillna (cell "bank_code" r)
                   (map_dict (dict_of_items BANK_NAMES) (cell "bank_code" r))) d,
         if bool_decide ("bank_name" ∈ output_columns) then output_columns
         else list_insert_at 6 "bank_name" output_columns)
      else (d, output_columns) in
    let d := if has_column "bank_code" d
             then select_rows (λ r, isin (allowed_bank_codes self) (cell "bank_code" r)) d
             else d in
    let d := ensure_columns output_columns d in
    let d := loc_columns output_columns d in
    let sort_cols := filter (λ c, has_column c d) ["bank_code"; "review_date"] in
    let d := match sort_cols with
             | [] => d
             | _ =>
                 let ascending :=
                   if bool_decide (sort_cols = ["bank_code"; "review_date"])
                   then [true; false]
                   else (λ _, true) <$> sort_cols in
                 sort_values (zip sort_cols ascending) d
             end in
    let d := reset_index d in
    Ok (set_df d self)).

(** [save_data]: [writable] tells whether [os.makedirs] and [to_csv]
    succeed; every exception of the [try] block is caught, also the one
    of reading a table that is still [None]. *)
Definition save_data (writable : bool) (self : ReviewPreprocessor)
  : bool * ReviewPreprocessor :=
  match df self with
  | Some d =>
      if writable then (true, set_stat "final_count" (Count (len d)) self)
      else (false, self)
  | None => (false, self)
  end.

(** [generate_report] prints and changes nothing. *)
Definition generate_report (self : ReviewPreprocessor) : ReviewPreprocessor := self.

(** [process] *)
Definition process (file : option DataFrame) (writable : bool)
           (self : ReviewPreprocessor) : result (bool * ReviewPreprocessor) :=
  let '(loaded, self) := load_data file self in
  if negb loaded then Ok (false, self)
  else
    self ← check_missing_data self;
    self ← handle_missing_values self;
    self ← normalize_dates self;
    self ← clean_text self;
    self ← validate_ratings self;
    self ← prepare_final_output self;
    let saved := save_data writable self in
    if saved.1 then Ok (true, generate_report saved.2) else Ok (false, saved.2).

End Stages.

(** ** A small environment for worked examples

    It reads plain decimal literals ([-12], [4.7]) and ISO dates
    ([2024-01-05]), on which it agrees with pandas; every other string
    is a parse failure. The general theorems below do not depend on
    it. *)

Definition digit_of (c : ascii) : option Z :=
  let n := nat_of_ascii c in
  if (48 <=? n) && (n <=? 57) then Some (Z.of_nat (n - 48)) else None.

Fixpoint digits_value (acc : Z) (s : string) : option Z :=
  match s with
  | EmptyString => Some acc
  | String c s' =>
      match digit_of c with
      | Some d => digits_value (10 * acc + d)%Z s'
      | None => None
      end
  end.

(** Splits at the first dot. *)
Fixpoint split_dot (s : string) : string * option string :=
  match s with
  | EmptyString => (EmptyString, None)
  | String c s' =>
      if Ascii.eqb c "."%char then (EmptyString, Some s')
      else let p := split_dot s' in (String c p.1, p.2)
  end.

Definition unsigned_decimal (s : string) : option Q :=
  let p := split_dot s in
  match p.1, p.2 with
  | EmptyString, _ => None
  | ip, None => (λ i, inject_Z i) <$> digits_value 0 ip
  | _, Some EmptyString => None
  | ip, Some fp =>
      match digits_value 0 ip, digits_value 0 fp with
      | Some i, Some f =>
          let scale := Pos.pow 10 (Pos.of_nat (String.length fp)) in
          Some (Qmake (i * Z.pos scale + f) scale)
      | _, _ => None
      end
  end.

Definition simple_decimal (s : string) : option Q :=
  match s with
  | String "-"%char s' => Qopp <$> unsigned_decimal s'
  | _ => unsigned_decimal s
  end.

Definition simple_iso_date (s : string) : option datetime :=
  if negb (String.length s =? 10) then None
  else
    match digits_value 0 (substring 0 4 s),
          digits_value 0 (substring 5 2 s),
          digits_value 0 (substring 8 2 s) with
    | Some y, Some m, Some d =>
        if Ascii.eqb (default "x"%char (String.get 4 s)) "-"%char
           && Ascii.eqb (default "x"%char (String.get 7 s)) "-"%char
           && (1 <=? m)%Z && (m <=? 12)%Z && (1 <=? d)%Z && (d <=? 28)%Z
        then Some (midnight (Date y m d))
        else None
    | _, _, _ => None
    end.

Definition simple_env : PandasEnv :=
  {| numeric_of_string := simple_decimal;
     datetime_of_string := simple_iso_date;
     datetime_of_number := λ _, None;
     str_of_float := λ _, "float" |}.

(** A table as [pd.read_csv] delivers it: labels 0, 1, ... and one cell
    per column in every row. *)
Definition table (cols : list string) (data : list (list value)) : DataFrame :=
  {| columns := cols;
     rows := zip (seq 0 (length data)) ((λ vs, list_to_map (zip cols vs)) <$> data) |}.

(** The table that a successful [process] leaves in [self.df]. *)
Definition output `{env : PandasEnv} (file : option DataFrame) : option DataFrame :=
  match process file true init with
  | Ok (true, self) => df self
  | _ => None
  end.

(** * Properties *)

(** ** DataFrame operations *)

(** A property of every row of a table. *)
Definition all_rows (P : row → Prop) (d : DataFrame) : Prop :=
  Forall (λ ir : nat * row, P ir.2) (rows d).

(** The labels of a table, in row order. *)
Definition labels (d : DataFrame) : list nat := fst <$> rows d.

Lemma cell_insert c v (r : row) : cell c (<[c := v]> r) = v.
Proof. unfold cell. by rewrite lookup_insert_eq. Qed.

Lemma cell_insert_ne c c' v (r : row) : c ≠ c' → cell c' (<[c := v]> r) = cell c' r.
Proof. intros Hne. unfold cell. by rewrite lookup_insert_ne. Qed.

(** Reads a cell through the updates of its row. *)
Ltac cell_simpl :=
  repeat (rewrite cell_insert || rewrite cell_insert_ne by done).

Lemma lookup_project (cols : list string) c (r : row) :
  c ∈ cols → filter (λ kv : string * value, kv.1 ∈ cols) r !! c = r !! c.
Proof.
  intros Hin. rewrite map_lookup_filter.
  destruct (r !! c) as [v|]; simpl; [|done].
  by rewrite option_guard_True.
Qed.

Lemma lookup_project_None (cols : list string) c (r : row) :
  c ∉ cols → filter (λ kv : string * value, kv.1 ∈ cols) r !! c = None.
Proof.
  intros Hin. apply map_lookup_filter_None. right. intros v _. exact Hin.
Qed.

Lemma has_column_true c d : has_column c d = true ↔ c ∈ columns d.
Proof. unfold has_column. apply bool_decide_eq_true. Qed.

Lemma has_column_false c d : has_column c d = false ↔ c ∉ columns d.
Proof. unfold has_column. apply bool_decide_eq_false. Qed.

Lemma elem_of_columns_assign c c' f d :
  c' ∈ columns (assign c f d) ↔ c' = c ∨ c' ∈ columns d.
Proof.
  unfold assign; simpl. destruct (has_column c d) eqn:Hc.
  - apply has_column_true in Hc. split; [auto|]. intros [->|?]; done.
  - rewrite elem_of_app, list_elem_of_singleton. tauto.
Qed.

Lemma has_column_assign c c' f d :
  has_column c' (assign c f d) = bool_decide (c' = c) || has_column c' d.
Proof.
  apply eq_true_iff_eq. rewrite has_column_true, elem_of_columns_assign.
  rewrite orb_true_iff, bool_decide_eq_true, has_column_true. done.
Qed.

Lemma has_column_assign_same c f d : has_column c (assign c f d) = true.
Proof. rewrite has_column_assign. by rewrite bool_decide_eq_true_2. Qed.

Lemma columns_assign_present c f d :
  has_column c d = true → columns (assign c f d) = columns d.
Proof. intros Hc. unfold assign; simpl. by rewrite Hc. Qed.

Lemma len_assign c f d : len (assign c f d) = len d.
Proof. unfold len, assign; simpl. by rewrite length_fmap. Qed.

Lemma all_rows_impl (P Q : row → Prop) d :
  (∀ r, P r → Q r) → all_rows P d → all_rows Q d.
Proof. intros HPQ HP. eapply Forall_impl; [exact HP|]. intros [i r]; simpl. apply HPQ. Qed.

Definition with_column (c : string) (cols : list string) : list string :=
  if bool_decide (c ∈ cols) then cols else (cols ++ [c])%list.

Lemma elem_of_with_column c c' cols : c' ∈ with_column c cols ↔ c' = c ∨ c' ∈ cols.
Proof.
  unfold with_column. case_bool_decide.
  - split; [auto|]. intros [->|?]; done.
  - rewrite elem_of_app, list_elem_of_singleton. tauto.
Qed.

Lemma columns_assign c f d : columns (assign c f d) = with_column c (columns d).
Proof. done. Qed.

Lemma rows_assign c f d :
  rows (assign c f d) = (λ ir : nat * row, (ir.1, <[c := f ir.2]> ir.2)) <$> rows d.
Proof. done. Qed.

Lemma columns_select_rows p d : columns (select_rows p d) = columns d.
Proof. done. Qed.

Lemma rows_select_rows p d :
  rows (select_rows p d) = filter (λ ir : nat * row, p ir.2) (rows d).
Proof. done. Qed.

Lemma DataFrame_eq d cols rs :
  columns d = cols → rows d = rs → d = {| columns := cols; rows := rs |}.
Proof. destruct d; simpl; by intros -> ->. Qed.

Lemma assign_if (b : bool) c f g d :
  (if b then assign c f d else assign c g d)
  = assign c (λ r, if b then f r else g r) d.
Proof. by destruct b. Qed.

(** ** Lists *)

Section ListFacts.
Context {A B : Type}.

Lemma filter_all (P : A → Prop) `{∀ x, Decision (P x)} (l : list A) :
  Forall P l → filter P l = l.
Proof.
  induction 1 as [|x l Hx Hl IH]; [done|].
  rewrite filter_cons_True by done. by rewrite IH.
Qed.

Lemma filter_none (P : A → Prop) `{∀ x, Decision (P x)} (l : list A) :
  length (filter P l) = 0 → Forall (λ x, ¬ P x) l.
Proof.
  induction l as [|x l IH]; [constructor|].
  rewrite filter_cons. destruct (decide (P x)); simpl; [lia|].
  intros Hl. constructor; auto.
Qed.

Lemma filter_fmap (f : A → B) (P : B → Prop) `{∀ y, Decision (P y)} (l : list A) :
  filter P (f <$> l) = f <$> filter (λ x, P (f x)) l.
Proof.
  induction l as [|x l IH]; [done|].
  rewrite fmap_cons, !filter_cons. destruct (decide (P (f x))); simpl; by rewrite IH.
Qed.

Lemma length_filter_split (P : A → Prop) `{∀ x, Decision (P x)} (l : list A) :
  length (filter P l) + length (filter (λ x, ¬ P x) l) = length l.
Proof.
  induction l as [|x l IH]; [done|].
  rewrite !filter_cons. destruct (decide (P x)), (decide (¬ P x)); simpl; try lia; tauto.
Qed.
End ListFacts.

(** ** Rating validation *)

Section Ratings.
Context `{env : PandasEnv}.

(** The integer that the rating of a row is coerced to. *)
Definition rating_number (r : row) : Z :=
  astype_int (default 0%Q (to_numeric (cell "rating" r))).

Definition valid_rating (z : Z) : bool := ((1 <=? z) && (z <=? 5))%Z.

Definition with_rating_number (ir : nat * row) : nat * row :=
  (ir.1, <["rating" := VInt (rating_number ir.2)]> ir.2).

Lemma valid_rating_spec z : valid_rating z = true ↔ (1 ≤ z ≤ 5)%Z.
Proof. unfold valid_rating. rewrite andb_true_iff, !Z.leb_le. done. Qed.

Lemma validate_ratings_spec self d :
  df self = Some d → has_column "rating" d = true →
  validate_ratings self =
    Ok (set_stat "invalid_ratings_removed"
          (Count (length (filter (λ ir : nat * row, ¬ valid_rating (rating_number ir.2)) (rows d))))
          (set_df {| columns := columns d;
                     rows := with_rating_number
                               <$> filter (λ ir : nat * row, valid_rating (rating_number ir.2))
                                     (rows d) |} self)).
Proof.
  intros Hdf Hcol. unfold validate_ratings, with_df. rewrite Hdf, Hcol; simpl.
  set (d1 := assign "rating" (λ r, coerce_rating (cell "rating" r)) d).
  assert (Hrows : rows d1 = with_rating_number <$> rows d) by done.
  assert (Hcols : columns d1 = columns d) by (by apply columns_assign_present).
  assert (Hinv : ∀ p : row → bool,
    (∀ r, p (<["rating" := VInt (rating_number r)]> r) = true ↔ ¬ valid_rating (rating_number r)) →
    len (select_rows p d1)
    = length (filter (λ ir : nat * row, ¬ valid_rating (rating_number ir.2)) (rows d))).
  { intros p Hp. unfold len, select_rows; simpl. fold with_rating_number.
    rewrite filter_fmap, length_fmap. f_equal. apply list_filter_iff.
    intros [i r]; simpl. rewrite <- Hp. apply Is_true_true. }
  assert (Hval : ∀ p : row → bool,
    (∀ r, p (<["rating" := VInt (rating_number r)]> r) = true ↔ valid_rating (rating_number r)) →
    rows (select_rows p d1)
    = with_rating_number <$> filter (λ ir : nat * row, valid_rating (rating_number ir.2)) (rows d)).
  { intros p Hp. unfold select_rows; simpl. fold with_rating_number.
    rewrite filter_fmap. f_equal. apply list_filter_iff.
    intros [i r]; simpl. rewrite <- Hp. apply Is_true_true. }
  rewrite Hinv; cycle 1.
  { intros r. rewrite cell_insert; simpl. unfold valid_rating.
    rewrite Is_true_true, orb_true_iff, andb_true_iff, !Z.ltb_lt, !Z.leb_le. lia. }
  do 2 f_equal. destruct (0 <? _) eqn:Hn.
  - unfold set_df. f_equal. f_equal.
    unfold select_rows at 1. rewrite Hcols. f_equal.
    apply (Hval (λ r, int_test (λ z, 1 <=? z)%Z (cell "rating" r)
                      && int_test (λ z, z <=? 5)%Z (cell "rating" r))).
    intros r. rewrite cell_insert; simpl. by rewrite Is_true_true.
  - apply Nat.ltb_ge in Hn. assert (Hn0 : length (filter (λ ir : nat * row, ¬ valid_rating (rating_number ir.2)) (rows d)) = 0) by lia.
    apply filter_none in Hn0.
    unfold set_df. f_equal. f_equal. destruct d1 as [c1 r1]; simpl in *. subst c1 r1.
    f_equal. f_equal. symmetry. apply filter_all.
    eapply Forall_impl; [exact Hn0|]. intros ir Hir. simpl in Hir.
    destruct (valid_rating (rating_number ir.2)); simpl in *; tauto.
Qed.
End Ratings.




Section RatingClaims.
Context `{env : PandasEnv}.


End RatingClaims.

Definition ratings_example : DataFrame :=
  table ["review_text"; "rating"]
    [ [VStr "fine"; VStr "4.7"];
      [VStr "ok"; VStr "7"];
      [VStr "bad"; VStr "one"];
      [VStr "good"; VInt 5] ].



Lemma fmap_filter_omap {A B} (P : A → Prop) `{∀ x, Decision (P x)}
      (h : A → B) (g : A → option B) (l : list A) :
  (∀ x, P x → g x = Some (h x)) → (∀ x, ¬ P x → g x = None) →
  h <$> filter P l = omap g l.
Proof.
  intros Hyes Hno. induction l as [|x l IH]; [done|].
  rewrite filter_cons; simpl. destruct (decide (P x)) as [HP|HP].
  - rewrite (Hyes _ HP). rewrite fmap_cons. by rewrite IH.
  - by rewrite (Hno _ HP).
Qed.

(** ** Date normalization *)

Section Dates.
Context `{env : PandasEnv}.

(** A row whose date was read as [t]. *)
Definition dated_row (r : row) (t : datetime) : row :=
  <["review_month" := VInt (month (dt_date t))]>
    (<["review_year" := VInt (year (dt_date t))]>
       (<["review_date" := VDate (dt_date t)]> r)).

(** The row that [normalize_dates] makes of a row: none when the date
    cannot be read. *)
Definition normalize_row (ir : nat * row) : option (nat * row) :=
  (λ t, (ir.1, dated_row ir.2 t)) <$> to_datetime (cell "review_date" ir.2).


Lemma normalize_dates_spec self d :
  df self = Some d → has_column "review_date" d = true →
  normalize_dates self =
    Ok (set_df {| columns := with_column "review_month"
                               (with_column "review_year" (columns d));
                  rows := omap normalize_row (rows d) |} self).
Proof.
  intros Hdf Hcol. unfold normalize_dates, with_df. rewrite Hdf, Hcol.
  cbn [negb]. do 2 f_equal. apply DataFrame_eq.
  - rewrite !columns_assign, columns_select_rows.
    f_equal. f_equal. unfold with_column. apply has_column_true in Hcol.
    by rewrite bool_decide_eq_true_2.
  - rewrite !rows_assign, rows_select_rows. rewrite <- !list_fmap_compose.
    apply fmap_filter_omap.
    + intros [i r]; simpl. intros Hp. apply Is_true_true, bool_decide_eq_true in Hp.
      destruct Hp as [t Ht]. unfold normalize_row; simpl. rewrite Ht; simpl.
      rewrite !cell_insert. rewrite cell_insert_ne by done. rewrite cell_insert. done.
    + intros [i r]; simpl. intros Hp. unfold normalize_row; simpl.
      destruct (to_datetime (cell "review_date" r)) eqn:Ht; [|done].
      exfalso. apply Hp. apply Is_true_true, bool_decide_eq_true. by eexists.
Qed.

End Dates.

(** ** Missing-value repair *)

Definition critical_columns (d : DataFrame) : list string :=
  filter (λ c, has_column c d) ["review_text"; "rating"; "bank_code"].

(** No null in any of the columns [cols]. *)
Definition complete (cols : list string) (r : row) : bool :=
  forallb (λ c, negb (isna (cell c r))) cols.

(** The defaults that [handle_missing_values] writes into the optional
    columns of a row of the table [d]. *)
Definition fill_optional (d : DataFrame) (r : row) : row :=
  <["reply_content" := if has_column "reply_content" d
                       then fillna (VStr "") (cell "reply_content" r) else VStr ""]>
    (<["thumbs_up" := if has_column "thumbs_up" d
                      then fillna (VInt 0) (cell "thumbs_up" r) else VInt 0]>
       (<["user_name" := if has_column "user_name" d
                         then fillna (VStr "Anonymous") (cell "user_name" r)
                         else VStr "Anonymous"]> r)).

Definition repaired (d : DataFrame) : DataFrame :=
  let d1 := derive_bank_code d in
  {| columns := with_column "reply_content"
                  (with_column "thumbs_up" (with_column "user_name" (columns d1)));
     rows := (λ ir : nat * row, (ir.1, fill_optional d1 ir.2))
             <$> filter (λ ir : nat * row, complete (critical_columns d1) ir.2) (rows d1) |}.

Lemma len_derive_bank_code d : len (derive_bank_code d) = len d.
Proof. unfold derive_bank_code. destruct (_ && _); [apply len_assign|done]. Qed.

Lemma len_repaired d :
  len (repaired d)
  = length (filter (λ ir : nat * row, complete (critical_columns (derive_bank_code d)) ir.2)
              (rows (derive_bank_code d))).
Proof. unfold len, repaired; simpl. by rewrite length_fmap. Qed.

Lemma len_repaired_le d : len (repaired d) ≤ len d.
Proof.
  rewrite len_repaired, <- (len_derive_bank_code d). apply length_filter.
Qed.

Lemma handle_missing_values_spec self d :
  df self = Some d →
  handle_missing_values self =
    Ok (set_stat "count_after_missing" (Count (len (repaired d)))
          (set_stat "rows_removed_missing" (Count (len d - len (repaired d)))
             (set_df (repaired d) self))).
Proof.
  intros Hdf. unfold handle_missing_values, with_df. rewrite Hdf.
  cbv zeta. fold (critical_columns (derive_bank_code d)).
  set (d1 := derive_bank_code d).
  set (d2 := match critical_columns d1 with [] => d1 | _ => dropna (critical_columns d1) d1 end).
  assert (Hcols2 : columns d2 = columns d1).
  { unfold d2. by destruct (critical_columns d1). }
  assert (Hrows2 : rows d2 = filter (λ ir : nat * row, complete (critical_columns d1) ir.2) (rows d1)).
  { unfold d2. destruct (critical_columns d1) eqn:Hc; [|done].
    symmetry. apply filter_all. by apply Forall_forall. }
  assert (Hhas2 : ∀ c, has_column c d2 = has_column c d1).
  { intros c. unfold has_column. by rewrite Hcols2. }
  assert (Hlen1 : len d1 = len d).
  { unfold d1, derive_bank_code. destruct (_ && _); [apply len_assign|done]. }
  rewrite !assign_if.
  match goal with
  | |- Ok (set_stat _ (Count (len ?x)) (set_stat _ (Count (_ - len ?y)) (set_df ?z _))) = _ =>
      assert (Heq : x = repaired d)
  end.
  { apply DataFrame_eq.
    - rewrite !columns_assign. by rewrite Hcols2.
    - rewrite !rows_assign, <- !list_fmap_compose, Hrows2.
      apply list_fmap_ext. intros _ [i r] _; simpl. unfold fill_optional. f_equal.
      rewrite !has_column_assign, !Hhas2; simpl.
      rewrite !cell_insert_ne by done. done. }
  assert (Hlen2 : len d2 = len (repaired d)).
  { unfold len at 1. rewrite Hrows2. by rewrite len_repaired. }
  rewrite Heq, Hlen1, Hlen2. done.
Qed.

Lemma stats_get_set k n self : stats_get k (set_stat k (Count n) self) = n.
Proof. unfold stats_get, set_stat; simpl. by rewrite lookup_insert_eq. Qed.

Lemma stats_get_set_ne k k' v self :
  k ≠ k' → stats_get k' (set_stat k v self) = stats_get k' self.
Proof. intros Hne. unfold stats_get, set_stat; simpl. by rewrite lookup_insert_ne. Qed.

Lemma stats_get_set_df k d self : stats_get k (set_df d self) = stats_get k self.
Proof. done. Qed.

(** C7, as the code has it. The critical columns are those of
    [review_text], [rating] and [bank_code] that the table has once
    [bank_code] has been derived from [bank_name]. Exactly the rows with
    a null in one of them are removed, and [rows_removed_missing] is
    their number. When the table then has none of the three, which is
    when the input has none of them and no [bank_name] column either, no
    row is dropped. The defaults of the optional columns are written
    into the rows that are kept and remove none. *)
Theorem handle_missing_values_contract self d :
  df self = Some d →
  let d1 := derive_bank_code d in
  ∃ self' d',
    handle_missing_values self = Ok self' ∧ df self' = Some d' ∧
    (∀ c, c ∈ critical_columns d1
          ↔ c ∈ ["review_text"; "rating"; "bank_code"] ∧ c ∈ columns d1) ∧
    (∀ r, complete (critical_columns d1) r = true
          ↔ ∀ c, c ∈ critical_columns d1 → cell c r ≠ VNull) ∧
    rows d' = (λ ir : nat * row, (ir.1, fill_optional d1 ir.2))
              <$> filter (λ ir : nat * row, complete (critical_columns d1) ir.2) (rows d1) ∧
    stats_get "rows_removed_missing" self'
    = length (filter (λ ir : nat * row, ¬ complete (critical_columns d1) ir.2) (rows d1)) ∧
    len d' + stats_get "rows_removed_missing" self' = len d ∧
    (critical_columns d1 = [] → len d' = len d) ∧
    (has_column "bank_name" d = false → d1 = d) ∧
    (has_column "review_text" d = false → has_column "rating" d = false →
     has_column "bank_code" d = false → has_column "bank_name" d = false →
     len d' = len d ∧ stats_get "rows_removed_missing" self' = 0) ∧
    all_rows (λ r', cell "user_name" r' ≠ VNull ∧ cell "thumbs_up" r' ≠ VNull
                    ∧ cell "reply_content" r' ≠ VNull) d'.
Proof.
  intros Hdf d1.
  assert (Hsplit : len (repaired d)
                   + length (filter (λ ir : nat * row, ¬ complete (critical_columns d1) ir.2) (rows d1))
                   = len d).
  { rewrite len_repaired, <- (len_derive_bank_code d). fold d1. apply length_filter_split. }
  assert (Hnone : critical_columns d1 = [] → len (repaired d) = len d).
  { intros Hc. rewrite len_repaired, <- (len_derive_bank_code d). fold d1. rewrite Hc.
    unfold len. f_equal. apply filter_all. by apply Forall_forall. }
  assert (Hsame : has_column "bank_name" d = false → d1 = d).
  { intros Hb. unfold d1, derive_bank_code. by rewrite Hb, andb_false_r. }
  eexists _, _.
  split; [by apply handle_missing_values_spec|].
  split; [done|].
  split.
  { intros c. unfold critical_columns. rewrite list_elem_of_filter, Is_true_true, has_column_true.
    tauto. }
  split.
  { intros r. unfold complete. rewrite forallb_forall. split.
    - intros H c Hc. apply list_elem_of_In in Hc. specialize (H _ Hc).
      by destruct (cell c r).
    - intros H c Hc. apply list_elem_of_In in Hc. specialize (H _ Hc).
      by destruct (cell c r). }
  split; [done|].
  rewrite stats_get_set_ne by done. rewrite stats_get_set.
  pose proof (len_repaired_le d) as Hle.
  split; [lia|].
  split; [lia|].
  split; [done|].
  split; [done|].
  split.
  { intros Ht Hr Hc Hn. assert (Hcrit : critical_columns d1 = []).
    { rewrite (Hsame Hn). unfold critical_columns.
      rewrite !filter_cons, filter_nil, Ht, Hr, Hc. done. }
    specialize (Hnone Hcrit). lia. }
  unfold all_rows, repaired; simpl. apply Forall_fmap, Forall_forall.
  intros [i r] _; simpl. unfold fill_optional.
  split_and!; cell_simpl.
  - destruct (has_column "user_name" _); [|done]. by destruct (cell "user_name" r).
  - destruct (has_column "thumbs_up" _); [|done]. by destruct (cell "thumbs_up" r).
  - destruct (has_column "reply_content" _); [|done]. by destruct (cell "reply_content" r).
Qed.

Definition unknown_bank_example : DataFrame :=
  table ["bank_name"] [ [VStr "Unknown Bank"] ].

(** The clause of C7 on a table without critical columns fails as it
    is stated: a table that has only a [bank_name] column has none of
    the three, and its row is dropped all the same, because [bank_code]
    is derived first and is null for a name that is not in
    [BANK_NAMES]. *)
Lemma no_critical_column_row_dropped :
  ¬ (∀ self d self' d',
        df self = Some d →
        has_column "review_text" d = false → has_column "rating" d = false →
        has_column "bank_code" d = false →
        handle_missing_values self = Ok self' → df self' = Some d' →
        len d' = len d).
Proof.
  intros H.
  pose proof (handle_missing_values_spec
                (set_df unknown_bank_example init) unknown_bank_example eq_refl) as Hrun.
  specialize (H (set_df unknown_bank_example init) unknown_bank_example _
                (repaired unknown_bank_example)
                eq_refl eq_refl eq_refl eq_refl Hrun eq_refl).
  vm_compute in H. discriminate.
Qed.

Definition missing_example : DataFrame :=
  table ["review_text"; "rating"; "user_name"]
    [ [VStr "good"; VInt 4; VNull];
      [VNull; VInt 3; VStr "Abebe"];
      [VStr "slow"; VNull; VStr "Sara"] ].

Lemma handle_missing_values_contract_witness :
  let d1 := derive_bank_code missing_example in
  ∃ self' d',
    handle_missing_values (set_df missing_example init) = Ok self' ∧ df self' = Some d' ∧
    (∀ c, c ∈ critical_columns d1
          ↔ c ∈ ["review_text"; "rating"; "bank_code"] ∧ c ∈ columns d1) ∧
    (∀ r, complete (critical_columns d1) r = true
          ↔ ∀ c, c ∈ critical_columns d1 → cell c r ≠ VNull) ∧
    rows d' = (λ ir : nat * row, (ir.1, fill_optional d1 ir.2))
              <$> filter (λ ir : nat * row, complete (critical_columns d1) ir.2) (rows d1) ∧
    stats_get "rows_removed_missing" self'
    = length (filter (λ ir : nat * row, ¬ complete (critical_columns d1) ir.2) (rows d1)) ∧
    len d' + stats_get "rows_removed_missing" self' = len missing_example ∧
    (critical_columns d1 = [] → len d' = len missing_example) ∧
    (has_column "bank_name" missing_example = false → d1 = missing_example) ∧
    (has_column "review_text" missing_example = false →
     has_column "rating" missing_example = false →
     has_column "bank_code" missing_example = false →
     has_column "bank_name" missing_example = false →
     len d' = len missing_example ∧ stats_get "rows_removed_missing" self' = 0) ∧
    all_rows (λ r', cell "user_name" r' ≠ VNull ∧ cell "thumbs_up" r' ≠ VNull
                    ∧ cell "reply_content" r' ≠ VNull) d'.
Proof.
  apply (handle_missing_values_contract (set_df missing_example init) missing_example).
  reflexivity.
Defined.

(** ** Text sanitization *)

Section Text.
Context `{env : PandasEnv}.

(** The sanitized review text of a row. *)
Definition cleaned_text (r : row) : string :=
clean_review_text (cell "review_text" r).

Definition clean_row (r : row) : row :=
<["text_length" := VInt (Z.of_nat (String.length (cleaned_text r)))]>
  (<["review_text" := VStr (cleaned_text r)]> r).

Definition cleaned (d : DataFrame) : DataFrame :=
{| columns := with_column "text_length" (columns d);
   rows := (λ ir : nat * row, (ir.1, clean_row ir.2))
           <$> filter (λ ir : nat * row, cleaned_text ir.2 ≠ "") (rows d) |}.

Lemma length_pos_nonempty (s : string) :
(0 <? Z.of_nat (String.length s))%Z = true ↔ s ≠ "".
Proof.
  rewrite Z.ltb_lt. destruct s; simpl; [|split; [done|lia]].
  split; [lia|done].
Qed.

Lemma clean_text_spec self d :
df self = Some d → has_column "review_text" d = true →
clean_text self =
  Ok (set_stat "count_after_cleaning" (Count (len (cleaned d)))
        (set_stat "empty_reviews_removed" (Count (len d - len (cleaned d)))
           (set_df (cleaned d) self))).
Proof.
  intros Hdf Hcol. unfold clean_text, with_df. rewrite Hdf, Hcol.
  cbn [negb]. cbv zeta.
  set (d1 := assign "review_text" (λ r, VStr (clean_review_text (cell "review_text" r))) d).
  set (d2 := select_rows (λ r, int_test (λ z, (0 <? z)%Z) (str_len (cell "review_text" r))) d1).
  assert (Hrows2 : rows d2
                   = (λ ir : nat * row, (ir.1, <["review_text" := VStr (cleaned_text ir.2)]> ir.2))
                     <$> filter (λ ir : nat * row, cleaned_text ir.2 ≠ "") (rows d)).
  { unfold d2, d1. rewrite rows_select_rows, rows_assign, filter_fmap. f_equal.
    apply list_filter_iff. intros [i r]; simpl. cell_simpl. simpl.
    rewrite Is_true_true. apply length_pos_nonempty. }
  assert (Hlen2 : len d2 = len (cleaned d)).
  { unfold len. rewrite Hrows2. simpl. by rewrite !length_fmap. }
  assert (Heq : assign "text_length" (λ r, str_len (cell "review_text" r)) d2 = cleaned d).
  { apply DataFrame_eq.
    - rewrite columns_assign. unfold d2, d1.
      rewrite columns_select_rows, columns_assign_present; done.
    - rewrite rows_assign, Hrows2, <- list_fmap_compose.
      apply list_fmap_ext. intros _ [i r] _; simpl. cell_simpl. done. }
  rewrite Heq, Hlen2. unfold d1. rewrite len_assign. done.
Qed.

Lemma clean_text_missing self d :
df self = Some d → has_column "review_text" d = false →
clean_text self = Raise (KeyError "review_text").
Proof. intros Hdf Hcol. unfold clean_text, with_df. by rewrite Hdf, Hcol. Qed.

Lemma len_cleaned_le d : len (cleaned d) ≤ len d.
Proof. unfold len, cleaned; simpl. rewrite length_fmap. apply length_filter. Qed.
End Text.

(** ** Sorting *)

Section SortFacts.
Context {A : Type} (leb : A → A → bool).

Lemma insert_sorted_Permutation x l : insert_sorted leb x l ≡ₚ x :: l.
Proof.
  induction l as [|y l IH]; [done|]. simpl.
  destruct (leb x y); [done|]. rewrite IH. apply Permutation_swap.
Qed.

Lemma stable_sort_Permutation l : stable_sort leb l ≡ₚ l.
Proof.
  induction l as [|x l IH]; [done|]. simpl.
  rewrite insert_sorted_Permutation. by rewrite IH.
Qed.

Lemma length_stable_sort l : length (stable_sort leb l) = length l.
Proof. apply Permutation_length, stable_sort_Permutation. Qed.

(** A comparison that decides both ways: one of two elements is
  below the other. *)
Definition total_leb : Prop := ∀ x y, leb x y = false → leb y x = true.

Lemma insert_sorted_Sorted x l :
total_leb → Sorted (λ a b, leb a b = true) l →
Sorted (λ a b, leb a b = true) (insert_sorted leb x l).
Proof.
  intros Htot Hs. induction Hs as [|y l Hs IH Hhd]; simpl.
  - repeat constructor.
  - destruct (leb x y) eqn:Hxy.
    + constructor; [by constructor|]. by constructor.
    + constructor; [done|].
      destruct Hhd as [|z l Hyz]; simpl.
      * constructor. by apply Htot.
      * destruct (leb x z); constructor; [by apply Htot|done].
Qed.

Lemma stable_sort_Sorted l :
total_leb → Sorted (λ a b, leb a b = true) (stable_sort leb l).
Proof.
  intros Htot. induction l as [|x l IH]; simpl; [constructor|].
  by apply insert_sorted_Sorted.
Qed.

(** Sorting a sorted list changes nothing. *)
Lemma stable_sort_sorted l :
Sorted (λ a b, leb a b = true) l → stable_sort leb l = l.
Proof.
  induction 1 as [|x l Hs IH Hhd]; [done|]. simpl. rewrite IH.
  destruct Hhd as [|y l Hxy]; simpl; [done|]. by rewrite Hxy.
Qed.

Lemma stable_sort_trivial l : (∀ x y, leb x y = true) → stable_sort leb l = l.
Proof.
  intros Hall. apply stable_sort_sorted.
  induction l as [|x l IH]; constructor; [done|].
  destruct l; constructor. apply Hall.
Qed.
End SortFacts.

(** ** Final projection *)

Lemma value_compare_antisym a b : value_compare b a = CompOpp (value_compare a b).
Proof.
  destruct a, b; simpl; try done.
  - apply Z.compare_antisym.
  - symmetry. apply Qcompare_antisym.
  - apply String.compare_antisym.
  - unfold date_compare.
    rewrite (Z.compare_antisym (year d) (year d0)), (Z.compare_antisym (month d) (month d0)),
      (Z.compare_antisym (day d) (day d0)).
    destruct (year d ?= year d0)%Z, (month d ?= month d0)%Z, (day d ?= day d0)%Z; done.
Qed.

Lemma row_leb_total keys : total_leb (λ a b : nat * row, row_leb keys a.2 b.2).
Proof.
  intros [i a] [j b]; simpl. clear i j.
  induction keys as [|[c asc] keys IH]; simpl; [done|].
  rewrite (value_compare_antisym (cell c a) (cell c b)).
  destruct (value_compare (cell c a) (cell c b)); simpl; [done| |]; destruct asc; done.
Qed.

Definition selected_columns (d : DataFrame) : list string :=
  filter (λ c, has_column c d) (desired ++ optional_extras)%list.

(** Whether [prepare_final_output] has to derive [bank_name]. *)
Definition derives_bank_name (d : DataFrame) : bool :=
  negb (has_column "bank_name" d) && has_column "bank_code" d.

Definition final_columns (d : DataFrame) : list string :=
  if derives_bank_name d then list_insert_at 6 "bank_name" (selected_columns d)
  else selected_columns d.

(** The display name of a bank code; a code that is not in
    [BANK_NAMES] stands for itself. *)
Definition canonical_name (code : value) : value :=
  fillna code (map_dict (dict_of_items BANK_NAMES) code).

Definition named_row (d : DataFrame) (r : row) : row :=
  if derives_bank_name d then <["bank_name" := canonical_name (cell "bank_code" r)]> r else r.

Definition final_row (d : DataFrame) (r : row) : row :=
  filter (λ kv : string * value, kv.1 ∈ final_columns d) (named_row d r).

Definition known_bank (allowed : gset string) (d : DataFrame) (r : row) : bool :=
  if has_column "bank_code" d then isin allowed (cell "bank_code" r) else true.

Definition sort_keys (d : DataFrame) : list (string * bool) :=
  match has_column "bank_code" d, has_column "review_date" d with
  | true, true => [("bank_code", true); ("review_date", false)]
  | true, false => [("bank_code", true)]
  | false, true => [("review_date", true)]
  | false, false => []
  end.

(** The rows of the final table before the labels are renumbered. *)
Definition final_rows (allowed : gset string) (d : DataFrame) : list (nat * row) :=
  stable_sort (λ a b : nat * row, row_leb (sort_keys d) a.2 b.2)
    ((λ ir : nat * row, (ir.1, final_row d ir.2))
       <$> filter (λ ir : nat * row, known_bank allowed d ir.2) (rows d)).

Definition prepared (allowed : gset string) (d : DataFrame) : DataFrame :=
  {| columns := final_columns d;
     rows := zip (seq 0 (length (final_rows allowed d))) (snd <$> final_rows allowed d) |}.

Lemma filter_app_filter {A} (P : A → Prop) `{∀ x, Decision (P x)} (l1 l2 : list A) :
  filter P (l1 ++ filter P l2) = filter P (l1 ++ l2).
Proof.
  rewrite !filter_app. f_equal. induction l2 as [|x l2 IH]; [done|].
  rewrite filter_cons. destruct (decide (P x)) as [HP|HP].
  - rewrite !filter_cons_True by done. by rewrite IH.
  - done.
Qed.

Lemma elem_of_selected_columns c d :
  c ∈ selected_columns d ↔ c ∈ (desired ++ optional_extras)%list ∧ c ∈ columns d.
Proof.
  unfold selected_columns. rewrite list_elem_of_filter, Is_true_true, has_column_true. tauto.
Qed.

Lemma elem_of_list_insert_at {A} i (x y : A) l :
  y ∈ list_insert_at i x l ↔ y = x ∨ y ∈ l.
Proof.
  unfold list_insert_at. rewrite elem_of_app, elem_of_cons.
  rewrite <- (take_drop i l) at 3. rewrite elem_of_app. tauto.
Qed.

Lemma elem_of_final_columns c d :
  c ∈ final_columns d
  ↔ (c = "bank_name" ∧ derives_bank_name d = true) ∨ c ∈ selected_columns d.
Proof.
  unfold final_columns. destruct (derives_bank_name d).
  - rewrite elem_of_list_insert_at. tauto.
  - split; [auto|]. intros [[_ ?]|?]; done.
Qed.

Lemma ensure_columns_present cols d :
  (∀ c, c ∈ cols → has_column c d = true) → ensure_columns cols d = d.
Proof.
  unfold ensure_columns. induction cols as [|c cols IH]; intros Hall; [done|].
  simpl. rewrite (Hall c) by left. apply IH. intros c' Hc'. apply Hall. by right.
Qed.

Lemma sort_columns_after_loc oc d :
  filter (λ c, has_column c (loc_columns oc d)) ["bank_code"; "review_date"]
  = (if bool_decide ("bank_code" ∈ oc) then ["bank_code"] else [])
    ++ (if bool_decide ("review_date" ∈ oc) then ["review_date"] else []).
Proof.
  rewrite !filter_cons, filter_nil. unfold has_column; simpl.
  destruct (bool_decide ("bank_code" ∈ oc)), (bool_decide ("review_date" ∈ oc)); done.
Qed.

(** Decides membership in a list of column names that is given in
    full. *)
Ltac solve_elem :=
  match goal with
  | |- ?x ∈ ?l => apply (bool_decide_unpack (x ∈ l)); vm_compute; exact I
  end.

Lemma has_final_column c d :
  c ∈ desired ++ optional_extras → c ≠ "bank_name" →
  bool_decide (c ∈ final_columns d) = has_column c d.
Proof.
  intros Hin Hne. apply eq_true_iff_eq.
  rewrite bool_decide_eq_true, has_column_true, elem_of_final_columns, elem_of_selected_columns.
  tauto.
Qed.

Lemma prepare_final_output_spec self d :
  df self = Some d →
  prepare_final_output self = Ok (set_df (prepared (allowed_bank_codes self) d) self).
Proof.
  intros Hdf. unfold prepare_final_output, with_df. rewrite Hdf. cbv zeta.
  rewrite filter_app_filter. fold (selected_columns d).
  set (A := allowed_bank_codes self).
  assert (Hoc : (if derives_bank_name d
                 then (assign "bank_name" (λ r, canonical_name (cell "bank_code" r)) d,
                       final_columns d)
                 else (d, final_columns d))
                = (if negb (has_column "bank_name" d) && has_column "bank_code" d
                   then (assign "bank_name"
                           (λ r, fillna (cell "bank_code" r)
                                   (map_dict (dict_of_items BANK_NAMES) (cell "bank_code" r))) d,
                         if bool_decide ("bank_name" ∈ selected_columns d)
                         then selected_columns d
                         else list_insert_at 6 "bank_name" (selected_columns d))
                   else (d, selected_columns d))).
  { unfold final_columns, derives_bank_name.
    destruct (has_column "bank_name" d) eqn:Hbn; simpl; [done|].
    destruct (has_column "bank_code" d); [|done].
    rewrite bool_decide_eq_false_2; [done|].
    rewrite elem_of_selected_columns. apply has_column_false in Hbn. tauto. }
  rewrite <- Hoc. clear Hoc.
  set (d0 := if derives_bank_name d
             then assign "bank_name" (λ r, canonical_name (cell "bank_code" r)) d else d).
  replace (if derives_bank_name d
           then (assign "bank_name" (λ r, canonical_name (cell "bank_code" r)) d,
                 final_columns d)
           else (d, final_columns d)) with (d0, final_columns d)
    by (unfold d0; by destruct (derives_bank_name d)).
  cbv beta iota.
  assert (Hbc0 : has_column "bank_code" d0 = has_column "bank_code" d).
  { unfold d0. destruct (derives_bank_name d); [|done].
    rewrite has_column_assign. by rewrite bool_decide_eq_false_2. }
  rewrite Hbc0.
  set (dsel := if has_column "bank_code" d then select_rows (λ r, isin A (cell "bank_code" r)) d0 else d0).
  assert (Hrows : rows dsel
                  = (λ ir : nat * row, (ir.1, named_row d ir.2))
                    <$> filter (λ ir : nat * row, known_bank A d ir.2) (rows d)).
  { unfold dsel, d0, known_bank, named_row.
    destruct (has_column "bank_code" d) eqn:Hbc, (derives_bank_name d) eqn:Hder.
    - rewrite rows_select_rows, rows_assign, filter_fmap. f_equal.
      apply list_filter_iff. intros [i r]; simpl. by cell_simpl.
    - rewrite rows_select_rows. rewrite <- (list_fmap_id (filter _ _)) at 1.
      apply list_fmap_ext. by intros _ [i r] _.
    - rewrite rows_assign. f_equal. symmetry. apply filter_all. by apply Forall_forall.
    - rewrite <- (list_fmap_id (rows d)) at 1.
      rewrite (filter_all _ (rows d)) by (by apply Forall_forall).
      apply list_fmap_ext. by intros _ [i r] _. }
  assert (Hcols : ∀ c, c ∈ final_columns d → has_column c dsel = true).
  { intros c Hc. assert (has_column c d0 = true) as Hc0.
    { apply elem_of_final_columns in Hc as [[-> Hder]|Hc].
      - unfold d0. rewrite Hder. apply has_column_assign_same.
      - apply elem_of_selected_columns in Hc as [_ Hc]. unfold d0.
        destruct (derives_bank_name d).
        + rewrite has_column_assign. apply has_column_true in Hc. rewrite Hc. apply orb_true_r.
        + by apply has_column_true. }
    unfold dsel. by destruct (has_column "bank_code" d). }
  rewrite (ensure_columns_present _ _ Hcols).
  rewrite sort_columns_after_loc.
  rewrite !has_final_column by (done || solve_elem).
  do 2 f_equal. unfold prepared, final_rows.
  assert (Hloc : rows (loc_columns (final_columns d) dsel)
                 = (λ ir : nat * row, (ir.1, final_row d ir.2))
                   <$> filter (λ ir : nat * row, known_bank A d ir.2) (rows d)).
  { unfold loc_columns; simpl. rewrite Hrows, <- list_fmap_compose. done. }
  rewrite <- Hloc. unfold sort_keys.
  destruct (has_column "bank_code" d), (has_column "review_date" d); simpl app.
  - rewrite bool_decide_eq_true_2 by done. done.
  - rewrite bool_decide_eq_false_2 by done. done.
  - rewrite bool_decide_eq_false_2 by done. done.
  - unfold reset_index. simpl columns. f_equal.
    rewrite stable_sort_trivial by done. done.
Qed.

Lemma columns_prepared allowed d : columns (prepared allowed d) = final_columns d.
Proof. done. Qed.

Lemma len_prepared allowed d :
  len (prepared allowed d)
  = length (filter (λ ir : nat * row, known_bank allowed d ir.2) (rows d)).
Proof.
  unfold len, prepared; simpl.
  rewrite length_zip, length_seq, length_fmap, Nat.min_id.
  unfold final_rows. by rewrite length_stable_sort, length_fmap.
Qed.

Lemma len_prepared_le allowed d : len (prepared allowed d) ≤ len d.
Proof. rewrite len_prepared. apply length_filter. Qed.

(** ** The whole pipeline *)

Lemma set_df_same self d : df self = Some d → set_df d self = self.
Proof. destruct self; simpl. by intros ->. Qed.

Lemma elem_of_columns_derive_bank_code c d :
  c ∈ columns (derive_bank_code d)
  ↔ c ∈ columns d ∨ (c = "bank_code" ∧ has_column "bank_name" d = true).
Proof.
  unfold derive_bank_code.
  destruct (has_column "bank_code" d) eqn:Hbc, (has_column "bank_name" d) eqn:Hbn;
    cbn [negb andb].
  - apply has_column_true in Hbc. split; [auto|]. by intros [?|[-> _]].
  - split; [auto|]. by intros [?|[_ ?]].
  - rewrite elem_of_columns_assign. split; [intros [->|?]; auto|intros [?|[-> _]]; auto].
  - split; [auto|]. by intros [?|[_ ?]].
Qed.

Lemma elem_of_columns_repaired c d :
  c ∈ columns (repaired d)
  ↔ c ∈ columns d ∨ (c = "bank_code" ∧ has_column "bank_name" d = true)
    ∨ c ∈ ["user_name"; "thumbs_up"; "reply_content"].
Proof.
  unfold repaired; simpl. rewrite !elem_of_with_column, elem_of_columns_derive_bank_code.
  rewrite !elem_of_cons, elem_of_nil.
  split.
  - intros [?|[?|[?|[?|?]]]]; auto 10.
  - intros [?|[?|[?|[?|[?|[]]]]]]; auto 10.
Qed.

Lemma length_omap_le {A B} (f : A → option B) (l : list A) :
  length (omap f l) ≤ length l.
Proof.
  induction l as [|x l IH]; csimpl; [done|]. destruct (f x); csimpl; lia.
Qed.

Section Pipeline.
Context `{env : PandasEnv}.

(** The table after [normalize_dates]. *)
Definition dated (d : DataFrame) : DataFrame :=
if has_column "review_date" d
then {| columns := with_column "review_month" (with_column "review_year" (columns d));
        rows := omap normalize_row (rows d) |}
else d.

(** The table after [validate_ratings]. *)
Definition rated (d : DataFrame) : DataFrame :=
if has_column "rating" d
then {| columns := columns d;
        rows := with_rating_number
                  <$> filter (λ ir : nat * row, valid_rating (rating_number ir.2)) (rows d) |}
else d.

Lemma normalize_dates_dated self d :
df self = Some d → normalize_dates self = Ok (set_df (dated d) self).
Proof.
  intros Hdf. unfold dated. destruct (has_column "review_date" d) eqn:Hcol.
  - by apply normalize_dates_spec.
  - unfold normalize_dates, with_df. rewrite Hdf, Hcol. simpl. by rewrite set_df_same.
Qed.

Lemma validate_ratings_rated self d :
df self = Some d →
∃ self', validate_ratings self = Ok self' ∧ df self' = Some (rated d) ∧
         allowed_bank_codes self' = allowed_bank_codes self ∧
         (∀ k, k ≠ "invalid_ratings_removed" → stats_get k self' = stats_get k self) ∧
         (has_column "rating" d = false → stats self' = stats self) ∧
         (has_column "rating" d = true →
          stats_get "invalid_ratings_removed" self' = len d - len (rated d)).
Proof.
  intros Hdf. unfold rated. destruct (has_column "rating" d) eqn:Hcol.
  - eexists. split; [by apply validate_ratings_spec|].
    split; [done|]. split; [done|].
    split; [intros k Hk; by rewrite stats_get_set_ne|].
    split; [done|]. intros _. rewrite stats_get_set. unfold len; simpl.
    rewrite length_fmap.
    rewrite <- (length_filter_split (λ ir : nat * row, valid_rating (rating_number ir.2)) (rows d)).
    lia.
  - exists self. unfold validate_ratings, with_df. rewrite Hdf, Hcol. simpl.
    split; [done|]. split; [done|]. split; [done|]. split; [done|]. split; done.
Qed.

Lemma len_dated_le d : len (dated d) ≤ len d.
Proof.
  unfold dated. destruct (has_column "review_date" d); [|done].
  unfold len; simpl. apply length_omap_le.
Qed.

Lemma len_rated_le d : len (rated d) ≤ len d.
Proof.
  unfold rated. destruct (has_column "rating" d); [|done].
  unfold len; simpl. rewrite length_fmap. apply length_filter.
Qed.

Lemma elem_of_columns_dated c d :
c ∈ columns (dated d)
↔ c ∈ columns d
  ∨ (has_column "review_date" d = true ∧ c ∈ ["review_year"; "review_month"]).
Proof.
  unfold dated. destruct (has_column "review_date" d); simpl.
  - rewrite !elem_of_with_column, !elem_of_cons, elem_of_nil. tauto.
  - split; [auto|]. intros [?|[? _]]; done.
Qed.

Lemma elem_of_columns_cleaned c d :
c ∈ columns (cleaned d) ↔ c ∈ columns d ∨ c = "text_length".
Proof. unfold cleaned; simpl. rewrite elem_of_with_column. tauto. Qed.

Lemma columns_rated d : columns (rated d) = columns d.
Proof. unfold rated. by destruct (has_column "rating" d). Qed.

(** The tables that [process] goes through. *)
Definition after_repair (t : DataFrame) : DataFrame := repaired t.
Definition after_dates (t : DataFrame) : DataFrame := dated (after_repair t).
Definition after_text (t : DataFrame) : DataFrame := cleaned (after_dates t).
Definition after_ratings (t : DataFrame) : DataFrame := rated (after_text t).
Definition final_table (t : DataFrame) : DataFrame :=
prepared (allowed_bank_codes init) (after_ratings t).

Lemma has_review_text_after_dates t :
has_column "review_text" (after_dates t) = has_column "review_text" t.
Proof.
  apply eq_true_iff_eq. rewrite !has_column_true. unfold after_dates, after_repair.
  rewrite elem_of_columns_dated, elem_of_columns_repaired.
  rewrite !elem_of_cons, elem_of_nil. split; [|tauto].
  intros [[?|[[? _]|[?|[?|[?|[]]]]]]|[_ [?|[?|[]]]]]; done.
Qed.

(** A table without a [review_text] column makes [process] fail with
    the [KeyError] of [clean_text]. *)
Lemma process_no_review_text t writable :
  has_column "review_text" t = false →
  process (Some t) writable init = Raise (KeyError "review_text").
Proof.
  intros Hcol. unfold process, load_data. cbn [negb].
  unfold check_missing_data at 1, with_df at 1. cbn [df set_stat set_df mbind result_bind].
  rewrite (handle_missing_values_spec _ t) by done. cbn [mbind result_bind].
  rewrite (normalize_dates_dated _ (repaired t)) by done. cbn [mbind result_bind].
  rewrite (clean_text_missing _ (after_dates t)); [done|done|].
  by rewrite has_review_text_after_dates.
Qed.

(** Reads a counter through the updates of the state. *)
Ltac stats_simpl :=
  repeat (rewrite stats_get_set || rewrite stats_get_set_df
          || rewrite stats_get_set_ne by discriminate).

(** The number of rows that a preprocessor holds. *)
Definition size (self : ReviewPreprocessor) : nat := from_option len 0 (df self).

(** What [process] does on a table with a [review_text] column: the
    states after each stage, the tables they hold, and the counters at
    the end. *)
Lemma process_trace t writable :
  has_column "review_text" t = true →
  ∃ s1 s2 s3 s4 s5 s6 self,
    check_missing_data (load_data (Some t) init).2 = Ok s1 ∧
    handle_missing_values s1 = Ok s2 ∧
    normalize_dates s2 = Ok s3 ∧
    clean_text s3 = Ok s4 ∧
    validate_ratings s4 = Ok s5 ∧
    prepare_final_output s5 = Ok s6 ∧
    df s2 = Some (after_repair t) ∧
    df s3 = Some (after_dates t) ∧
    df s4 = Some (after_text t) ∧
    df s5 = Some (after_ratings t) ∧
    df s6 = Some (final_table t) ∧
    process (Some t) writable init = Ok (writable, self) ∧
    df self = Some (final_table t) ∧
    stats_get "original_count" self = len t ∧
    stats_get "rows_removed_missing" self = len t - len (after_repair t) ∧
    stats_get "empty_reviews_removed" self = len (after_dates t) - len (after_text t) ∧
    stats_get "invalid_ratings_removed" self = len (after_text t) - len (after_ratings t) ∧
    (writable = true → stats_get "final_count" self = len (final_table t)).
Proof.
  intros Hcol.
  set (s0 := (load_data (Some t) init).2).
  assert (∃ s1, check_missing_data s0 = Ok s1 ∧ df s1 = Some t
                ∧ allowed_bank_codes s1 = allowed_bank_codes init
                ∧ stats_get "original_count" s1 = len t
                ∧ stats_get "invalid_ratings_removed" s1 = 0)
    as (s1 & H1 & Hdf1 & Ha1 & Ho1 & Hi1).
  { eexists. split; [reflexivity|]. done. }
  pose proof (handle_missing_values_spec s1 t Hdf1) as H2.
  match type of H2 with _ = Ok ?s => set (s2 := s) in H2 end.
  pose proof (normalize_dates_dated s2 (repaired t) eq_refl) as H3.
  match type of H3 with _ = Ok ?s => set (s3 := s) in H3 end.
  rewrite <- has_review_text_after_dates in Hcol.
  pose proof (clean_text_spec s3 (after_dates t) eq_refl Hcol) as H4.
  match type of H4 with _ = Ok ?s => set (s4 := s) in H4 end.
  destruct (validate_ratings_rated s4 (after_text t) eq_refl)
    as (s5 & H5 & Hdf5 & Hallowed & Hother & Hnone & Hsome).
  pose proof (prepare_final_output_spec s5 _ Hdf5) as H6.
  match type of H6 with _ = Ok ?s => set (s6 := s) in H6 end.
  assert (Hfinal : prepared (allowed_bank_codes s5) (rated (after_text t)) = final_table t).
  { unfold final_table, after_ratings. by rewrite Hallowed, <- Ha1. }
  assert (Hs4 : stats_get "original_count" s4 = len t
                ∧ stats_get "rows_removed_missing" s4 = len t - len (after_repair t)
                ∧ stats_get "empty_reviews_removed" s4
                  = len (after_dates t) - len (after_text t)
                ∧ stats_get "invalid_ratings_removed" s4 = 0).
  { unfold s4, s3, s2. split_and!; stats_simpl; [exact Ho1|reflexivity|reflexivity|exact Hi1]. }
  destruct Hs4 as (Ho4 & Hm4 & He4 & Hi4).
  assert (Hir : stats_get "invalid_ratings_removed" s5
                = len (after_text t) - len (after_ratings t)).
  { destruct (has_column "rating" (after_text t)) eqn:Hr.
    - by apply Hsome.
    - unfold after_ratings, rated. rewrite Hr, Nat.sub_diag.
      unfold stats_get. rewrite (Hnone eq_refl). exact Hi4. }
  exists s1, s2, s3, s4, s5, s6.
  exists (if writable then set_stat "final_count" (Count (len (final_table t))) s6 else s6).
  do 6 (split; [done|]).
  split; [done|]. split; [done|]. split; [done|]. split; [done|].
  split; [unfold s6; cbn [df set_df]; by rewrite Hfinal|].
  split.
  { unfold process. fold s0. change (load_data (Some t) init) with (true, s0).
    cbn [negb]. rewrite H1. cbn [mbind result_bind].
    rewrite H2. cbn [mbind result_bind]. rewrite H3. cbn [mbind result_bind].
    rewrite H4. cbn [mbind result_bind]. rewrite H5. cbn [mbind result_bind].
    rewrite H6. cbn [mbind result_bind].
    unfold save_data, s6. cbn [df set_df]. rewrite Hfinal.
    by destruct writable. }
  assert (Hstats : ∀ k, k ≠ "invalid_ratings_removed" → stats_get k s6 = stats_get k s4).
  { intros k Hk. unfold s6. rewrite stats_get_set_df. by apply Hother. }
  assert (Hir6 : stats_get "invalid_ratings_removed" s6
                 = len (after_text t) - len (after_ratings t)) by done.
  assert (Hdf6 : df s6 = Some (final_table t)).
  { unfold s6. cbn [df set_df]. by rewrite Hfinal. }
  destruct writable.
  - split; [exact Hdf6|]. stats_simpl.
    rewrite (Hstats "original_count"), (Hstats "rows_removed_missing"),
      (Hstats "empty_reviews_removed") by discriminate.
    split_and!; [exact Ho4|exact Hm4|exact He4|exact Hir6|reflexivity].
  - split; [exact Hdf6|].
    rewrite (Hstats "original_count"), (Hstats "rows_removed_missing"),
      (Hstats "empty_reviews_removed") by discriminate.
    split_and!; [exact Ho4|exact Hm4|exact He4|exact Hir6|discriminate].
Qed.

(** [process] succeeds only on a table that was read, has a
    [review_text] column and could be written. *)
Lemma process_true_inv file writable self :
  process file writable init = Ok (true, self) →
  ∃ t, file = Some t ∧ writable = true ∧ has_column "review_text" t = true.
Proof.
  intros Hrun. destruct file as [t|]; [|discriminate].
  exists t. destruct (has_column "review_text" t) eqn:Hcol.
  - destruct (process_trace t writable Hcol) as (?&?&?&?&?&?&?&_&_&_&_&_&_&_&_&_&_&_&Hp&_).
    rewrite Hp in Hrun. by simplify_eq.
  - by rewrite process_no_review_text in Hrun.
Qed.
End Pipeline.

(** ** Conservation of rows *)

Section Conservation.
Context `{env : PandasEnv}.

(** C1, as the code has it. After a successful run the final count is
    at most the original count, and the rows that are gone are those
    counted by [rows_removed_missing], [empty_reviews_removed] and
    [invalid_ratings_removed] together with the rows that
    [normalize_dates] and the bank filter of [prepare_final_output]
    removed; these two stages record no counter, so the three counters
    add up to at most the difference. *)
Theorem removals_accounted file writable self :
  process file writable init = Ok (true, self) →
  ∃ t s1 s2 s3 s4 s5 s6,
    file = Some t ∧
    check_missing_data (load_data (Some t) init).2 = Ok s1 ∧
    handle_missing_values s1 = Ok s2 ∧
    normalize_dates s2 = Ok s3 ∧
    clean_text s3 = Ok s4 ∧
    validate_ratings s4 = Ok s5 ∧
    prepare_final_output s5 = Ok s6 ∧
    stats_get "original_count" self = len t ∧
    stats_get "final_count" self = size s6 ∧
    stats_get "rows_removed_missing" self = len t - size s2 ∧
    stats_get "empty_reviews_removed" self = size s3 - size s4 ∧
    stats_get "invalid_ratings_removed" self = size s4 - size s5 ∧
    size s2 ≤ len t ∧ size s3 ≤ size s2 ∧ size s4 ≤ size s3 ∧
    size s5 ≤ size s4 ∧ size s6 ≤ size s5 ∧
    stats_get "final_count" self ≤ stats_get "original_count" self ∧
    stats_get "original_count" self - stats_get "final_count" self
    = stats_get "rows_removed_missing" self + stats_get "empty_reviews_removed" self
      + stats_get "invalid_ratings_removed" self
      + (size s2 - size s3) + (size s5 - size s6) ∧
    stats_get "rows_removed_missing" self + stats_get "empty_reviews_removed" self
    + stats_get "invalid_ratings_removed" self
    ≤ stats_get "original_count" self - stats_get "final_count" self.
Proof.
  intros Hrun. destruct (process_true_inv _ _ _ Hrun) as (t & -> & -> & Hcol).
  destruct (process_trace t true Hcol)
    as (s1 & s2 & s3 & s4 & s5 & s6 & self' & H1 & H2 & H3 & H4 & H5 & H6
        & Hd2 & Hd3 & Hd4 & Hd5 & Hd6 & Hp & _ & Ho & Hm & He & Hi & Hf).
  rewrite Hp in Hrun. simplify_eq. specialize (Hf eq_refl).
  exists t, s1, s2, s3, s4, s5, s6.
  unfold size. rewrite Hd2, Hd3, Hd4, Hd5, Hd6. cbn [from_option].
  pose proof (len_repaired_le t) as L2.
  pose proof (len_dated_le (after_repair t)) as L3.
  pose proof (len_cleaned_le (after_dates t)) as L4.
  pose proof (len_rated_le (after_text t)) as L5.
  pose proof (len_prepared_le (allowed_bank_codes init) (after_ratings t)) as L6.
  fold (after_repair t) in L2. fold (after_dates t) in L3. fold (after_text t) in L4.
  fold (after_ratings t) in L5. fold (final_table t) in L6.
  rewrite Ho, Hm, He, Hi, Hf.
  do 7 (split; [done|]).
  repeat split; try done; lia.
Qed.
End Conservation.

Definition uncounted_example : DataFrame :=
  table ["review_text"; "rating"; "review_date"; "bank_code"]
    [ [VStr "works well"; VInt 5; VStr "2024-01-05"; VStr "CBE"];
      [VStr "crashes"; VInt 1; VStr "yesterday"; VStr "BOA"];
      [VStr "fine"; VInt 4; VStr "2024-02-11"; VStr "Awash"] ].

(** The state that [process] returns on a table, under the small
    environment. *)
Definition processed (t : DataFrame) : ReviewPreprocessor :=
  match process (env := simple_env) (Some t) true init with
  | Ok (_, self) => self
  | Raise _ => init
  end.

(** C1 fails as it is stated: of three rows, one is removed for its
    date and one for its bank, and no counter records either. *)
Lemma removals_not_counted :
  process (env := simple_env) (Some uncounted_example) true init
  = Ok (true, processed uncounted_example)
  ∧ stats_get "original_count" (processed uncounted_example) = 3
  ∧ stats_get "final_count" (processed uncounted_example) = 1
  ∧ stats_get "original_count" (processed uncounted_example)
    - stats_get "final_count" (processed uncounted_example)
    ≠ stats_get "rows_removed_missing" (processed uncounted_example)
      + stats_get "empty_reviews_removed" (processed uncounted_example)
      + stats_get "invalid_ratings_removed" (processed uncounted_example).
Proof. vm_compute. repeat split; try reflexivity. discriminate. Qed.

Lemma removals_accounted_witness :
  ∃ t s1 s2 s3 s4 s5 s6,
    Some uncounted_example = Some t ∧
    check_missing_data (load_data (Some t) init).2 = Ok s1 ∧
    handle_missing_values s1 = Ok s2 ∧
    normalize_dates (env := simple_env) s2 = Ok s3 ∧
    clean_text (env := simple_env) s3 = Ok s4 ∧
    validate_ratings (env := simple_env) s4 = Ok s5 ∧
    prepare_final_output s5 = Ok s6 ∧
    stats_get "original_count" (processed uncounted_example) = len t ∧
    stats_get "final_count" (processed uncounted_example) = size s6 ∧
    stats_get "rows_removed_missing" (processed uncounted_example) = len t - size s2 ∧
    stats_get "empty_reviews_removed" (processed uncounted_example) = size s3 - size s4 ∧
    stats_get "invalid_ratings_removed" (processed uncounted_example) = size s4 - size s5 ∧
    size s2 ≤ len t ∧ size s3 ≤ size s2 ∧ size s4 ≤ size s3 ∧
    size s5 ≤ size s4 ∧ size s6 ≤ size s5 ∧
    stats_get "final_count" (processed uncounted_example)
    ≤ stats_get "original_count" (processed uncounted_example) ∧
    stats_get "original_count" (processed uncounted_example)
    - stats_get "final_count" (processed uncounted_example)
    = stats_get "rows_removed_missing" (processed uncounted_example)
      + stats_get "empty_reviews_removed" (processed uncounted_example)
      + stats_get "invalid_ratings_removed" (processed uncounted_example)
      + (size s2 - size s3) + (size s5 - size s6) ∧
    stats_get "rows_removed_missing" (processed uncounted_example)
    + stats_get "empty_reviews_removed" (processed uncounted_example)
    + stats_get "invalid_ratings_removed" (processed uncounted_example)
    ≤ stats_get "original_count" (processed uncounted_example)
      - stats_get "final_count" (processed uncounted_example).
Proof.
  apply (removals_accounted (env := simple_env) (Some uncounted_example) true
           (processed uncounted_example)).
  vm_compute. reflexivity.
Defined.

(** ** Missing columns *)

Definition no_text_example : DataFrame :=
  table ["rating"; "bank_code"] [ [VInt 5; VStr "CBE"]; [VInt 2; VStr "BOA"] ].

Definition three_column_example : DataFrame :=
  table ["review_text"; "rating"; "bank_code"]
    [ [VStr "works well"; VInt 5; VStr "CBE"]; [VStr "slow"; VInt 2; VStr "BOA"] ].

Ltac solve_not_elem :=
  match goal with
  | |- ?x ∉ ?l => apply (proj1 (bool_decide_eq_false (x ∈ l))); vm_compute; reflexivity
  end.

Section MissingColumns.
Context `{env : PandasEnv}.

(** Every column that [prepare_final_output] selects is a column of
    the table it selects from, or the [bank_name] it has just derived:
    the loop that would create a missing column finds none. *)
Lemma final_columns_present d c :
  c ∈ final_columns d → c ∈ columns d ∨ c = "bank_name".
Proof.
  rewrite elem_of_final_columns, elem_of_selected_columns. intros [[-> _]|[_ ?]]; auto.
Qed.

(** The columns of the final table are among those of the input and
    those that the stages add; no stage adds [review_id], [review_date]
    or [source]. *)
Lemma final_table_columns t c :
  c ∈ columns (final_table t) →
  c ∈ columns t
  ∨ c ∈ ["bank_code"; "user_name"; "thumbs_up"; "reply_content"; "review_year";
         "review_month"; "text_length"; "bank_name"].
Proof.
  intros Hc. unfold final_table in Hc. rewrite columns_prepared in Hc.
  apply final_columns_present in Hc as [Hc| ->]; [|right; solve_elem].
  unfold after_ratings in Hc. rewrite columns_rated in Hc.
  apply elem_of_columns_cleaned in Hc as [Hc| ->]; [|right; solve_elem].
  apply elem_of_columns_dated in Hc as [Hc|[_ Hc]].
  - apply elem_of_columns_repaired in Hc as [Hc|[[-> _]|Hc]]; [by left|right; solve_elem|].
    right. rewrite !elem_of_cons in *. rewrite elem_of_nil in Hc. tauto.
  - right. rewrite !elem_of_cons in *. rewrite elem_of_nil in Hc. tauto.
Qed.

(** C2 on a table with the columns [review_text], [rating] and
    [bank_code] only: the run succeeds, and the final table has neither
    [review_id] nor [review_date] nor [source]; the derived [bank_name]
    comes last. *)
Theorem required_columns_not_created :
  ∃ self d,
    process (Some three_column_example) true init = Ok (true, self) ∧
    df self = Some d ∧
    columns d = ["review_text"; "rating"; "bank_code"; "user_name"; "thumbs_up";
                 "text_length"; "bank_name"] ∧
    ("review_id" ∉ columns d) ∧ ("review_date" ∉ columns d) ∧ ("source" ∉ columns d).
Proof.
  destruct (process_trace three_column_example true eq_refl)
    as (_ & _ & _ & _ & _ & _ & self & _ & _ & _ & _ & _ & _ & _ & _ & _ & _ & _
        & Hp & Hdf & _).
  exists self, (final_table three_column_example).
  split; [done|]. split; [done|].
  assert (Hcols : columns (final_table three_column_example)
                  = ["review_text"; "rating"; "bank_code"; "user_name"; "thumbs_up";
                     "text_length"; "bank_name"]) by (vm_compute; reflexivity).
  rewrite Hcols. split; [done|].
  split_and!; solve_not_elem.
Qed.

(** C3 on a table without a [review_text] column: [clean_text] raises
    a [KeyError], which [process] does not catch, whether or not the
    output could be written. *)
Theorem missing_review_text_raises writable :
  process (Some no_text_example) writable init = Raise (KeyError "review_text").
Proof. by apply process_no_review_text. Qed.
End MissingColumns.

(** ** Order of the final table *)




Lemma rows_prepared allowed d :
  snd <$> rows (prepared allowed d) = snd <$> final_rows allowed d.
Proof.
  unfold prepared; simpl. apply snd_zip. by rewrite length_seq, length_fmap.
Qed.

Lemma labels_prepared allowed d :
  labels (prepared allowed d) = seq 0 (len (prepared allowed d)).
Proof.
  unfold labels, len, prepared; simpl.
  rewrite length_zip, length_seq, length_fmap, Nat.min_id.
  apply fst_zip. by rewrite length_seq, length_fmap.
Qed.

Lemma final_rows_Sorted allowed d :
  Sorted (λ a b : nat * row, row_leb (sort_keys d) a.2 b.2 = true) (final_rows allowed d).
Proof. unfold final_rows. apply stable_sort_Sorted, row_leb_total. Qed.


Definition order_example : DataFrame :=
  table ["review_text"; "review_date"; "bank_code"]
    [ [VStr "a"; VDate (Date 2024 1 5); VStr "Dashen"];
      [VStr "b"; VDate (Date 2024 3 1); VStr "BOA"];
      [VStr "c"; VDate (Date 2023 12 9); VStr "CBE"];
      [VStr "d"; VDate (Date 2024 6 2); VStr "BOA"] ].


Example order_example_sorted :
  (λ d, (λ ir : nat * row, (ir.1, cell "bank_code" ir.2, cell "review_date" ir.2)) <$> rows d)
    <$> output (env := simple_env) (Some order_example)
  = Some [ (0, VStr "BOA", VDate (Date 2024 6 2));
           (1, VStr "BOA", VDate (Date 2024 3 1));
           (2, VStr "CBE", VDate (Date 2023 12 9));
           (3, VStr "Dashen", VDate (Date 2024 1 5)) ].
Proof. vm_compute. reflexivity. Qed.

(** ** Sanitized text is a fixed point of sanitization *)

(** Whitespace in [s] is single blanks only; [after_space] tells that
    the character before [s] was whitespace. *)
Fixpoint collapsed (after_space : bool) (s : string) : bool :=
  match s with
  | EmptyString => true
  | String c s' =>
      if is_space c
      then Ascii.eqb c " "%char && negb after_space && collapsed true s'
      else collapsed false s'
  end.

Lemma collapsed_weaken b s : collapsed true s = true → collapsed b s = true.
Proof.
  destruct s as [|c s]; [done|]. simpl. destruct (is_space c); [|done].
  rewrite andb_false_r. done.
Qed.

Lemma collapse_from_collapsed b s : collapsed b (collapse_from b s) = true.
Proof.
  revert b. induction s as [|c s IH]; intros b; [done|]. simpl.
  destruct (is_space c) eqn:Hc.
  - destruct b; [apply IH|]. simpl. apply IH.
  - simpl. rewrite Hc. apply IH.
Qed.

Lemma collapse_from_fixed b s : collapsed b s = true → collapse_from b s = s.
Proof.
  revert b. induction s as [|c s IH]; intros b; [done|]. simpl.
  destruct (is_space c) eqn:Hc.
  - rewrite !andb_true_iff, negb_true_iff. intros [[Heq ->] Hs].
    apply Ascii.eqb_eq in Heq as ->. by rewrite (IH true).
  - intros Hs. by rewrite (IH false).
Qed.

Lemma lstrip_collapsed b s : collapsed b s = true → collapsed b (lstrip s) = true.
Proof.
  revert b. induction s as [|c s IH]; intros b; [done|]. simpl.
  destruct (is_space c) eqn:Hc.
  - rewrite !andb_true_iff. intros [_ Hs]. apply collapsed_weaken. by apply IH.
  - intros Hs. simpl. by rewrite Hc.
Qed.

Lemma rstrip_collapsed b s : collapsed b s = true → collapsed b (rstrip s) = true.
Proof.
  revert b. induction s as [|c s IH]; intros b; [done|]. simpl.
  destruct (is_space c) eqn:Hc.
  - rewrite !andb_true_iff. intros [[Heq Hb] Hs]. specialize (IH true Hs).
    destruct (rstrip s) as [|c' t]; [done|].
    simpl in *. rewrite Hc, Heq, Hb. exact IH.
  - intros Hs. specialize (IH false Hs).
    destruct (rstrip s) as [|c' t]; simpl in *; by rewrite Hc.
Qed.

(** The string does not begin with whitespace. *)
Definition starts_clean (s : string) : bool :=
  match s with
  | EmptyString => true
  | String c _ => negb (is_space c)
  end.

Lemma lstrip_starts_clean s : starts_clean (lstrip s) = true.
Proof.
  induction s as [|c s IH]; [done|]. simpl.
  destruct (is_space c) eqn:Hc; [done|]. simpl. by rewrite Hc.
Qed.

Lemma rstrip_starts_clean s : starts_clean s = true → starts_clean (rstrip s) = true.
Proof.
  destruct s as [|c s]; [done|]. simpl. intros Hc.
  destruct (rstrip s); [|done]. apply negb_true_iff in Hc. by rewrite Hc; simpl; rewrite Hc.
Qed.

Lemma lstrip_fixed s : starts_clean s = true → lstrip s = s.
Proof.
  destruct s as [|c s]; [done|]. simpl. intros Hc.
  apply negb_true_iff in Hc. by rewrite Hc.
Qed.

Lemma rstrip_idem s : rstrip (rstrip s) = rstrip s.
Proof.
  induction s as [|c s IH]; [done|]. simpl.
  destruct (rstrip s) as [|c' t] eqn:Hr.
  - destruct (is_space c) eqn:Hc; [done|]. simpl. by rewrite Hc.
  - change (rstrip (String c (String c' t))) with
      (match rstrip (String c' t) with
       | EmptyString => if is_space c then EmptyString else String c EmptyString
       | u => String c u
       end).
    by rewrite IH.
Qed.

Lemma strip_idem s : strip (strip s) = strip s.
Proof.
  unfold strip. rewrite (lstrip_fixed (rstrip (lstrip s))).
  - apply rstrip_idem.
  - apply rstrip_starts_clean, lstrip_starts_clean.
Qed.

(** Sanitizing a sanitized text gives it back. *)
Lemma sanitize_idem s :
  strip (collapse_whitespace (strip (collapse_whitespace s)))
  = strip (collapse_whitespace s).
Proof.
  unfold collapse_whitespace at 1.
  rewrite collapse_from_fixed; [apply strip_idem|].
  unfold strip. apply rstrip_collapsed, lstrip_collapsed, collapse_from_collapsed.
Qed.

Section TextFixed.
Context `{env : PandasEnv}.

Lemma clean_review_text_idem v :
  clean_review_text (VStr (clean_review_text v)) = clean_review_text v.
Proof.
  unfold clean_review_text at 1. simpl.
  destruct (clean_review_text v) as [|c s] eqn:Hv; [done|].
  rewrite <- Hv. clear Hv. unfold clean_review_text.
  destruct (isna v || is_empty_str v); [done|]. apply sanitize_idem.
Qed.
End TextFixed.

(** ** Facts about rows and the stages that keep them *)

(** [P] looks at the columns [cs] of a row only. *)
Definition supported (cs : list string) (P : row → Prop) : Prop :=
  ∀ r r' : row, (∀ c, c ∈ cs → r !! c = r' !! c) → P r → P r'.

Lemma supported_insert cs (P : row → Prop) c v (r : row) :
  supported cs P → c ∉ cs → P r → P (<[c := v]> r).
Proof.
  intros Hsup Hc. apply Hsup. intros c' Hc'.
  rewrite lookup_insert_ne; [done|]. by intros ->.
Qed.

Lemma supported_project cs (P : row → Prop) (cols : list string) (r : row) :
  supported cs P → (∀ c, c ∈ cs → c ∈ cols) →
  P r → P (filter (λ kv : string * value, kv.1 ∈ cols) r).
Proof.
  intros Hsup Hcs. apply Hsup. intros c Hc. by rewrite lookup_project; [|apply Hcs].
Qed.

Lemma all_rows_elem (P : row → Prop) d :
  all_rows P d ↔ ∀ i r, (i, r) ∈ rows d → P r.
Proof.
  unfold all_rows. rewrite Forall_forall. split.
  - intros H i r Hin. exact (H (i, r) Hin).
  - intros H [i r] Hin. exact (H i r Hin).
Qed.

Lemma all_rows_snd (P : row → Prop) d : all_rows P d ↔ Forall P (snd <$> rows d).
Proof. unfold all_rows. by rewrite Forall_fmap. Qed.

(** A row of the final table comes from a row of a known bank. *)
Lemma all_rows_prepared (Q : row → Prop) allowed d :
  (∀ i r, (i, r) ∈ rows d → known_bank allowed d r = true → Q (final_row d r)) →
  all_rows Q (prepared allowed d).
Proof.
  intros HQ. rewrite all_rows_snd, rows_prepared. unfold final_rows.
  rewrite stable_sort_Permutation. rewrite <- list_fmap_compose.
  apply Forall_fmap, Forall_forall. intros [i r] Hin; simpl.
  apply list_elem_of_filter in Hin as [Hk Hin]. apply (HQ i r Hin). by apply Is_true_true.
Qed.

Lemma all_rows_prepared_keep cs (P : row → Prop) allowed d :
  supported cs P →
  (∀ c, c ∈ cs → c ∈ final_columns d) →
  ("bank_name" ∈ cs → derives_bank_name d = false) →
  all_rows P d → all_rows P (prepared allowed d).
Proof.
  intros Hsup Hcs Hbn HP. apply all_rows_prepared. intros i r Hin _.
  rewrite all_rows_elem in HP. specialize (HP i r Hin).
  unfold final_row. apply (supported_project cs); [done|done|].
  unfold named_row. destruct (derives_bank_name d) eqn:Hder; [|done].
  apply (supported_insert cs); [done| |done]. intros Hin'. by specialize (Hbn Hin').
Qed.

Section Keep.
Context `{env : PandasEnv}.

Lemma all_rows_dated_keep cs (P : row → Prop) d :
  supported cs P →
  (∀ c, c ∈ cs → c ∉ ["review_date"; "review_year"; "review_month"]) →
  all_rows P d → all_rows P (dated d).
Proof.
  intros Hsup Hcs HP. unfold dated. destruct (has_column "review_date" d); [|done].
  rewrite all_rows_elem in *. simpl. intros i r' Hin.
  apply list_elem_of_omap in Hin as [[i0 r0] [Hin0 Hn]].
  unfold normalize_row in Hn; simpl in Hn.
  destruct (to_datetime (cell "review_date" r0)) as [t|]; simplify_eq/=.
  unfold dated_row.
  assert (Hno : ∀ c, c ∈ ["review_date"; "review_year"; "review_month"] → c ∉ cs).
  { intros c Hc Hc'. by apply (Hcs c Hc'). }
  do 3 (apply (supported_insert cs); [done|apply Hno; solve_elem|]).
  by eapply HP.
Qed.

Lemma all_rows_cleaned_keep cs (P : row → Prop) d :
  supported cs P →
  (∀ c, c ∈ cs → c ∉ ["review_text"; "text_length"]) →
  all_rows P d → all_rows P (cleaned d).
Proof.
  intros Hsup Hcs HP. rewrite all_rows_elem in *. unfold cleaned; simpl.
  intros i r' Hin. apply list_elem_of_fmap in Hin as [[i0 r0] [Heq Hin]].
  apply list_elem_of_filter in Hin as [_ Hin]. simplify_eq/=.
  assert (Hno : ∀ c, c ∈ ["review_text"; "text_length"] → c ∉ cs).
  { intros c Hc Hc'. by apply (Hcs c Hc'). }
  unfold clean_row.
  do 2 (apply (supported_insert cs); [done|apply Hno; solve_elem|]).
  by eapply HP.
Qed.

Lemma all_rows_rated_keep cs (P : row → Prop) d :
  supported cs P → "rating" ∉ cs →
  all_rows P d → all_rows P (rated d).
Proof.
  intros Hsup Hcs HP. unfold rated. destruct (has_column "rating" d); [|done].
  rewrite all_rows_elem in *. simpl.
  intros i r' Hin. apply list_elem_of_fmap in Hin as [[i0 r0] [Heq Hin]].
  apply list_elem_of_filter in Hin as [_ Hin]. unfold with_rating_number in Heq.
  simplify_eq/=.
  apply (supported_insert cs); [done|done|]. by eapply HP.
Qed.
End Keep.

(** *** The facts *)

(** The column holds a value that is not null. *)
Definition filled (c : string) (r : row) : Prop :=
  ∃ v, r !! c = Some v ∧ v ≠ VNull.

Definition rating_ok (r : row) : Prop :=
  ∃ z, r !! "rating" = Some (VInt z) ∧ (1 ≤ z ≤ 5)%Z.

Definition date_ok (r : row) : Prop :=
  ∃ dd, r !! "review_date" = Some (VDate dd)
        ∧ r !! "review_year" = Some (VInt (year dd))
        ∧ r !! "review_month" = Some (VInt (month dd)).

Definition bank_ok (allowed : gset string) (r : row) : Prop :=
  ∃ code, r !! "bank_code" = Some (VStr code) ∧ code ∈ allowed.

(** The name and the code of the bank belong together in
    [BANK_NAMES]. *)
Definition bank_paired (r : row) : Prop :=
  ∃ code name, r !! "bank_code" = Some (VStr code)
               ∧ r !! "bank_name" = Some (VStr name)
               ∧ dict_of_items BANK_NAMES !! code = Some name.

Lemma supported_filled c : supported [c] (filled c).
Proof.
  intros r r' Heq (v & Hv & Hn). exists v. split; [|done].
  rewrite <- Heq; [done|]. by left.
Qed.

Lemma supported_rating_ok : supported ["rating"] rating_ok.
Proof.
  intros r r' Heq (z & Hz & Hr). exists z. split; [|done].
  rewrite <- Heq; [done|]. by left.
Qed.

Lemma supported_date_ok :
  supported ["review_date"; "review_year"; "review_month"] date_ok.
Proof.
  intros r r' Heq (dd & H1 & H2 & H3). exists dd.
  rewrite <- !Heq by solve_elem. done.
Qed.


Lemma cell_lookup c (r : row) v : r !! c = Some v → cell c r = v.
Proof. unfold cell. by intros ->. Qed.

Lemma lookup_cell c (r : row) v : cell c r = v → v ≠ VNull → r !! c = Some v.
Proof. unfold cell. destruct (r !! c); simpl; [by intros ->|]. by intros <-. Qed.

(** *** Where the facts come from *)

Lemma inverse_names name code :
  dict_of_items (prod_swap <$> BANK_NAMES) !! name = Some code →
  dict_of_items BANK_NAMES !! code = Some name.
Proof.
  unfold dict_of_items, BANK_NAMES. simpl. intros H.
  repeat (rewrite lookup_insert in H; case_decide; [by simplify_eq|]).
  by rewrite lookup_empty in H.
Qed.


Lemma repaired_filled d :
  all_rows (λ r, filled "user_name" r ∧ filled "thumbs_up" r) (repaired d).
Proof.
  rewrite all_rows_elem. unfold repaired; simpl. intros i r' Hin.
  apply list_elem_of_fmap in Hin as [[i0 r0] [Heq _]]. simplify_eq/=.
  unfold fill_optional, filled. split.
  - eexists. split; [by simplify_map_eq|].
    destruct (has_column "user_name" _); [|done]. by destruct (cell "user_name" r0).
  - eexists. split; [by simplify_map_eq|].
    destruct (has_column "thumbs_up" _); [|done]. by destruct (cell "thumbs_up" r0).
Qed.

Lemma repaired_bank_paired d :
  has_column "bank_name" d = true → has_column "bank_code" d = false →
  all_rows bank_paired (repaired d).
Proof.
  intros Hbn Hbc. rewrite all_rows_elem. unfold repaired; simpl. intros i r' Hin.
  apply list_elem_of_fmap in Hin as [[i0 r0] [Heq Hin]]. simplify_eq/=.
  apply list_elem_of_filter in Hin as [Hcomplete Hin]. simpl in Hcomplete.
  unfold derive_bank_code in Hin, Hcomplete. rewrite Hbn, Hbc in Hin, Hcomplete.
  cbn [negb andb] in Hin, Hcomplete.
  apply list_elem_of_fmap in Hin as [[i1 r1] [Heq Hin]]. simplify_eq/=.
  assert (Hcrit : "bank_code" ∈ critical_columns
                    (assign "bank_code"
                       (λ r, fillna VNull
                               (map_dict (dict_of_items (prod_swap <$> BANK_NAMES))
                                  (cell "bank_name" r))) d)).
  { unfold critical_columns. apply list_elem_of_filter. split; [|solve_elem].
    apply Is_true_true, has_column_assign_same. }
  apply Is_true_true in Hcomplete. unfold complete in Hcomplete.
  rewrite forallb_forall in Hcomplete.
  specialize (Hcomplete _ (proj1 (list_elem_of_In _ _) Hcrit)).
  rewrite cell_insert in Hcomplete.
  destruct (cell "bank_name" r1) as [| | |name|] eqn:Hname; try done.
  simpl in Hcomplete.
  match type of Hcomplete with
  | context [?m !! name] => destruct (m !! name) as [code|] eqn:Hcode; [|done]
  end.
  exists code, name. unfold fill_optional.
  split; [by simplify_map_eq|]. split.
  - do 4 (rewrite lookup_insert_ne by done). by apply lookup_cell.
  - by apply inverse_names.
Qed.

Section Facts.
Context `{env : PandasEnv}.

Definition text_ok (r : row) : Prop :=
  ∃ s, r !! "review_text" = Some (VStr s) ∧ s ≠ ""
       ∧ clean_review_text (VStr s) = s
       ∧ r !! "text_length" = Some (VInt (Z.of_nat (String.length s))).

Lemma supported_text_ok : supported ["review_text"; "text_length"] text_ok.
Proof.
  intros r r' Heq (s & H1 & H2 & H3 & H4). exists s.
  rewrite <- !Heq by solve_elem. done.
Qed.

Lemma dated_date_ok d :
  has_column "review_date" d = true → all_rows date_ok (dated d).
Proof.
  intros Hcol. unfold dated. rewrite Hcol. rewrite all_rows_elem. simpl.
  intros i r' Hin. apply list_elem_of_omap in Hin as [[i0 r0] [Hin0 Hn]].
  unfold normalize_row in Hn; simpl in Hn.
  destruct (to_datetime (cell "review_date" r0)) as [t|]; simplify_eq/=.
  exists (dt_date t). unfold dated_row. split_and!; by simplify_map_eq.
Qed.

Lemma cleaned_text_ok d : all_rows text_ok (cleaned d).
Proof.
  rewrite all_rows_elem. unfold cleaned; simpl.
  intros i r' Hin. apply list_elem_of_fmap in Hin as [[i0 r0] [Heq Hin]].
  apply list_elem_of_filter in Hin as [Hne _]. simplify_eq/=.
  exists (cleaned_text r0). unfold clean_row.
  split; [by simplify_map_eq|]. split; [done|].
  split; [apply clean_review_text_idem|]. by simplify_map_eq.
Qed.

Lemma rated_rating_ok d :
  has_column "rating" d = true → all_rows rating_ok (rated d).
Proof.
  intros Hcol. unfold rated. rewrite Hcol. rewrite all_rows_elem. simpl.
  intros i r' Hin. apply list_elem_of_fmap in Hin as [[i0 r0] [Heq Hin]].
  apply list_elem_of_filter in Hin as [Hv _]. unfold with_rating_number in Heq.
  simplify_eq/=. exists (rating_number r0). split; [by simplify_map_eq|].
  apply valid_rating_spec. by apply Is_true_true.
Qed.
End Facts.

Lemma prepared_bank_ok allowed d :
  has_column "bank_code" d = true → all_rows (bank_ok allowed) (prepared allowed d).
Proof.
  intros Hbc. apply all_rows_prepared. intros i r Hin Hk.
  unfold known_bank in Hk. rewrite Hbc in Hk. unfold isin in Hk.
  destruct (cell "bank_code" r) as [| | |code|] eqn:Hcode; try done.
  apply bool_decide_eq_true in Hk. exists code. split; [|done].
  unfold final_row. rewrite lookup_project.
  - unfold named_row. destruct (derives_bank_name d).
    + rewrite lookup_insert_ne by done. by apply lookup_cell.
    + by apply lookup_cell.
  - apply elem_of_final_columns. right. apply elem_of_selected_columns.
    split; [solve_elem|]. by apply has_column_true.
Qed.

(** A row of the final table has no cell outside the columns of the
    table. *)
Lemma prepared_domain allowed d :
  all_rows (λ r, ∀ c, c ∉ final_columns d → r !! c = None) (prepared allowed d).
Proof.
  apply all_rows_prepared. intros i r _ _ c Hc. unfold final_row.
  by apply lookup_project_None.
Qed.


(** ** Bank names *)

Section BankNames.
Context `{env : PandasEnv}.

(** The columns of the table that reaches [prepare_final_output]. *)
Lemma elem_of_columns_after_ratings c t :
  c ∈ columns (after_ratings t)
  ↔ c ∈ columns t
    ∨ (c = "bank_code" ∧ has_column "bank_name" t = true)
    ∨ c ∈ ["user_name"; "thumbs_up"; "reply_content"; "text_length"]
    ∨ (has_column "review_date" t = true ∧ c ∈ ["review_year"; "review_month"]).
Proof.
  unfold after_ratings, after_text, after_dates, after_repair.
  rewrite columns_rated, elem_of_columns_cleaned, elem_of_columns_dated.
  assert (Hrd : has_column "review_date" (repaired t) = has_column "review_date" t).
  { apply eq_true_iff_eq. rewrite !has_column_true, elem_of_columns_repaired.
    rewrite !elem_of_cons, elem_of_nil. split; [|auto].
    intros [?|[[? _]|[?|[?|[?|[]]]]]]; done. }
  rewrite Hrd, elem_of_columns_repaired, !elem_of_cons, !elem_of_nil.
  split.
  - intros [[[?|[?|[?|[?|[?|[]]]]]]|[? ?]]|?]; auto 10.
  - intros [?|[?|[[?|[?|[?|[?|[]]]]]|[? ?]]]]; auto 10.
Qed.

Lemma has_column_final_table c t :
  c ∈ desired ++ optional_extras → c ≠ "bank_name" →
  has_column c (final_table t) = has_column c (after_ratings t).
Proof.
  intros HL Hne. unfold has_column at 1, final_table. rewrite columns_prepared.
  by apply has_final_column.
Qed.

Lemma has_bank_name_after_ratings t :
  has_column "bank_name" (after_ratings t) = has_column "bank_name" t.
Proof.
  apply eq_true_iff_eq. rewrite !has_column_true, elem_of_columns_after_ratings.
  rewrite !elem_of_cons, !elem_of_nil. split; [|auto].
  intros [?|[[? _]|[[?|[?|[?|[?|[]]]]]|[_ [?|[?|[]]]]]]]; done.
Qed.

Lemma has_bank_code_after_ratings t :
  has_column "bank_code" (after_ratings t)
  = has_column "bank_code" t || has_column "bank_name" t.
Proof.
  apply eq_true_iff_eq.
  rewrite orb_true_iff, !has_column_true, elem_of_columns_after_ratings.
  rewrite has_column_true, !elem_of_cons, !elem_of_nil. split.
  - intros [?|[[_ ?]|[[?|[?|[?|[?|[]]]]]|[_ [?|[?|[]]]]]]]; try done; auto.
  - intros [?|?]; auto.
Qed.

Lemma bank_columns_final_table t :
  has_column "bank_name" (final_table t) = has_column "bank_code" (final_table t).
Proof.
  unfold final_table. apply eq_true_iff_eq.
  unfold has_column at 1 2. rewrite !columns_prepared, !bool_decide_eq_true.
  rewrite !elem_of_final_columns, !elem_of_selected_columns.
  unfold derives_bank_name.
  rewrite <- !has_column_true, has_bank_name_after_ratings, has_bank_code_after_ratings.
  destruct (has_column "bank_name" t), (has_column "bank_code" t); simpl; split;
    intros [[? ?]|[? ?]]; try done; auto; right; (split; [solve_elem|done]).
Qed.

End BankNames.





(** ** Tables that the pipeline has normalized *)

Lemma in_final_columns c d :
  c ∈ desired ++ optional_extras → c ∈ columns d → c ∈ final_columns d.
Proof.
  intros HL Hc. apply elem_of_final_columns. right. by apply elem_of_selected_columns.
Qed.

Lemma final_columns_known c d : c ∈ final_columns d → c ∈ desired ++ optional_extras.
Proof.
  rewrite elem_of_final_columns, elem_of_selected_columns.
  intros [[-> _]|[? _]]; [solve_elem|done].
Qed.

Lemma all_rows_cond (b : Prop) (P : row → Prop) d :
  (b → all_rows P d) → all_rows (λ r, b → P r) d.
Proof.
  intros H. apply all_rows_elem. intros i r Hin Hb.
  specialize (H Hb). rewrite all_rows_elem in H. by eapply H.
Qed.

Lemma Sorted_zip_snd {A B} (R : B → B → Prop) (ks : list A) (l : list B) :
  length ks = length l →
  Sorted R l → Sorted (λ a b : A * B, R a.2 b.2) (zip ks l).
Proof.
  intros Hlen Hs. revert ks Hlen.
  induction Hs as [|x l Hs IH Hhd]; intros [|k ks] Hlen; simplify_eq/=; constructor.
  - by apply IH.
  - destruct Hhd as [|y l Hxy]; destruct ks as [|k' ks]; simplify_eq/=; by constructor.
Qed.

Section Normalized.
Context `{env : PandasEnv}.

(** What holds of a row of a normalized table [T]. *)
Definition row_normal (T : DataFrame) (r : row) : Prop :=
  (∀ c, c ∉ columns T → r !! c = None)
  ∧ text_ok r ∧ filled "user_name" r ∧ filled "thumbs_up" r
  ∧ (has_column "rating" T = true → rating_ok r)
  ∧ (has_column "review_date" T = true → date_ok r)
  ∧ (has_column "bank_code" T = true → bank_ok (allowed_bank_codes init) r).

(** The shape of the tables that [process] produces. *)
Record normalized (T : DataFrame) : Prop := {
  norm_columns : ∀ c, c ∈ columns T → c ∈ desired ++ optional_extras;
  norm_nodup : NoDup (columns T);
  norm_required :
    ∀ c, c ∈ ["review_text"; "text_length"; "user_name"; "thumbs_up"] → c ∈ columns T;
  norm_date_columns :
    has_column "review_date" T = true →
    has_column "review_year" T = true ∧ has_column "review_month" T = true;
  norm_bank_columns : has_column "bank_name" T = has_column "bank_code" T;
  norm_rows : all_rows (row_normal T) T;
  norm_sorted :
    Sorted (λ a b : nat * row, row_leb (sort_keys T) a.2 b.2 = true) (rows T);
  norm_labels : labels T = seq 0 (len T)
}.

Lemma has_review_date_after_ratings t :
  has_column "review_date" (after_ratings t) = has_column "review_date" t.
Proof.
  apply eq_true_iff_eq. rewrite !has_column_true, elem_of_columns_after_ratings.
  rewrite !elem_of_cons, !elem_of_nil. split; [|auto].
  intros [?|[[? _]|[[?|[?|[?|[?|[]]]]]|[_ [?|[?|[]]]]]]]; done.
Qed.

Lemma has_rating_after_text t :
  has_column "rating" (after_text t) = has_column "rating" (after_ratings t).
Proof. unfold after_ratings, has_column. by rewrite columns_rated. Qed.

Lemma has_review_date_after_repair t :
  has_column "review_date" (after_repair t) = has_column "review_date" t.
Proof.
  apply eq_true_iff_eq. rewrite !has_column_true. unfold after_repair.
  rewrite elem_of_columns_repaired, !elem_of_cons, elem_of_nil. split; [|auto].
  intros [?|[[? _]|[?|[?|[?|[]]]]]]; done.
Qed.

Lemma NoDup_final_columns d : NoDup (final_columns d).
Proof.
  assert (Hsel : NoDup (selected_columns d)).
  { unfold selected_columns. apply NoDup_filter.
    apply (bool_decide_unpack (NoDup (desired ++ optional_extras))). by vm_compute. }
  unfold final_columns. destruct (derives_bank_name d) eqn:Hder; [|done].
  unfold list_insert_at.
  rewrite <- (take_drop 6 (selected_columns d)) in Hsel.
  apply NoDup_app in Hsel as (H1 & H2 & H3).
  assert (Hno : "bank_name" ∉ selected_columns d).
  { rewrite elem_of_selected_columns, <- has_column_true. intros [_ Hbn].
    unfold derives_bank_name in Hder. by rewrite Hbn in Hder. }
  rewrite <- (take_drop 6 (selected_columns d)), elem_of_app in Hno.
  apply NoDup_app. split; [done|]. split.
  - intros x Hx. rewrite elem_of_cons. intros [->|Hx']; [tauto|]. by apply (H2 x).
  - apply NoDup_cons. split; [tauto|done].
Qed.
End Normalized.

(** Refutes a membership in a list of column names that is given in
    full. *)
Ltac absurd_elem :=
  let H := fresh in
  intros H; apply (bool_decide_pack _) in H; vm_compute in H; destruct H.

Section FinalTableNormalized.
Context `{env : PandasEnv}.

Lemma after_ratings_columns_basic t c :
  has_column "review_text" t = true →
  c ∈ ["review_text"; "text_length"; "user_name"; "thumbs_up"] →
  c ∈ columns (after_ratings t).
Proof.
  intros Hcol Hc. apply elem_of_columns_after_ratings.
  rewrite !elem_of_cons, elem_of_nil in Hc.
  destruct Hc as [->|[->|[->|[->|[]]]]].
  - left. by apply has_column_true.
  - right. right. left. solve_elem.
  - right. right. left. solve_elem.
  - right. right. left. solve_elem.
Qed.

Lemma final_table_filled t :
  all_rows (λ r, filled "user_name" r ∧ filled "thumbs_up" r) (final_table t).
Proof.
  assert (Hsup : supported ["user_name"; "thumbs_up"]
                   (λ r, filled "user_name" r ∧ filled "thumbs_up" r)).
  { intros r r' Heq [H1 H2]. split.
    - apply (supported_filled "user_name" r); [|done].
      intros c Hc. apply Heq. apply list_elem_of_singleton in Hc as ->. solve_elem.
    - apply (supported_filled "thumbs_up" r); [|done].
      intros c Hc. apply Heq. apply list_elem_of_singleton in Hc as ->. solve_elem. }
  assert (Hdisj : ∀ (l : list string) c,
            c ∈ ["user_name"; "thumbs_up"] →
            bool_decide ("user_name" ∈ l) || bool_decide ("thumbs_up" ∈ l) = false →
            c ∉ l).
  { intros l c Hc Hl Hin. rewrite !elem_of_cons, elem_of_nil in Hc.
    apply orb_false_iff in Hl as [H1 H2].
    apply bool_decide_eq_false in H1. apply bool_decide_eq_false in H2.
    destruct Hc as [->|[->|[]]]; done. }
  unfold final_table. apply (all_rows_prepared_keep ["user_name"; "thumbs_up"]); [done| |absurd_elem|].
  { intros c Hc. apply in_final_columns.
    - rewrite !elem_of_cons, elem_of_nil in Hc. destruct Hc as [->|[->|[]]]; solve_elem.
    - apply elem_of_columns_after_ratings. right. right. left.
      rewrite !elem_of_cons, elem_of_nil in Hc. destruct Hc as [->|[->|[]]]; solve_elem. }
  apply (all_rows_rated_keep ["user_name"; "thumbs_up"]); [done|solve_not_elem|].
  apply (all_rows_cleaned_keep ["user_name"; "thumbs_up"]); [done| |].
  { intros c Hc. by apply Hdisj. }
  apply (all_rows_dated_keep ["user_name"; "thumbs_up"]); [done| |].
  { intros c Hc. by apply Hdisj. }
  apply repaired_filled.
Qed.

Lemma final_table_text_ok t :
  has_column "review_text" t = true → all_rows text_ok (final_table t).
Proof.
  intros Hcol. unfold final_table.
  apply (all_rows_prepared_keep ["review_text"; "text_length"]);
    [apply supported_text_ok| |absurd_elem|].
  { intros c Hc. apply in_final_columns.
    - rewrite !elem_of_cons, elem_of_nil in Hc. destruct Hc as [->|[->|[]]]; solve_elem.
    - apply after_ratings_columns_basic; [done|].
      rewrite !elem_of_cons, elem_of_nil in Hc. destruct Hc as [->|[->|[]]]; solve_elem. }
  apply (all_rows_rated_keep ["review_text"; "text_length"]);
    [apply supported_text_ok|solve_not_elem|].
  apply cleaned_text_ok.
Qed.

Lemma final_table_rating_ok t :
  has_column "rating" (final_table t) = true → all_rows rating_ok (final_table t).
Proof.
  rewrite has_column_final_table by (solve_elem || done). intros Hcol.
  unfold final_table.
  apply (all_rows_prepared_keep ["rating"]); [apply supported_rating_ok| |absurd_elem|].
  { intros c Hc. apply list_elem_of_singleton in Hc as ->.
    apply in_final_columns; [solve_elem|]. by apply has_column_true. }
  apply rated_rating_ok. by rewrite has_rating_after_text.
Qed.

Lemma final_table_date_ok t :
  has_column "review_date" (final_table t) = true → all_rows date_ok (final_table t).
Proof.
  rewrite has_column_final_table by (solve_elem || done).
  rewrite has_review_date_after_ratings. intros Hcol.
  unfold final_table.
  apply (all_rows_prepared_keep ["review_date"; "review_year"; "review_month"]);
    [apply supported_date_ok| |absurd_elem|].
  { intros c Hc. apply in_final_columns.
    - rewrite !elem_of_cons, elem_of_nil in Hc. destruct Hc as [->|[->|[->|[]]]]; solve_elem.
    - apply elem_of_columns_after_ratings.
      rewrite !elem_of_cons, elem_of_nil in Hc. destruct Hc as [->|[->|[->|[]]]].
      + left. by apply has_column_true.
      + right. right. right. split; [done|solve_elem].
      + right. right. right. split; [done|solve_elem]. }
  apply (all_rows_rated_keep ["review_date"; "review_year"; "review_month"]);
    [apply supported_date_ok|solve_not_elem|].
  apply (all_rows_cleaned_keep ["review_date"; "review_year"; "review_month"]);
    [apply supported_date_ok| |].
  { intros c Hc. rewrite !elem_of_cons, elem_of_nil in *.
    intros [->|[->|[]]]; destruct Hc as [?|[?|[?|[]]]]; done. }
  apply dated_date_ok. by rewrite has_review_date_after_repair.
Qed.

Lemma final_table_bank_ok t :
  has_column "bank_code" (final_table t) = true →
  all_rows (bank_ok (allowed_bank_codes init)) (final_table t).
Proof.
  rewrite has_column_final_table by (solve_elem || done). intros Hcol.
  by apply prepared_bank_ok.
Qed.

Lemma sort_keys_final_table t : sort_keys (final_table t) = sort_keys (after_ratings t).
Proof.
  unfold sort_keys. by rewrite !has_column_final_table by (solve_elem || done).
Qed.

(** The table that [process] leaves is normalized. *)
Lemma final_table_normalized t :
  has_column "review_text" t = true → normalized (final_table t).
Proof.
  intros Hcol. split.
  - intros c. apply final_columns_known.
  - apply NoDup_final_columns.
  - intros c Hc. apply in_final_columns.
    + rewrite !elem_of_cons, elem_of_nil in Hc.
      destruct Hc as [->|[->|[->|[->|[]]]]]; solve_elem.
    + by apply after_ratings_columns_basic.
  - rewrite !has_column_final_table by (solve_elem || done).
    rewrite has_review_date_after_ratings. intros Hrd.
    split; apply has_column_true, elem_of_columns_after_ratings;
      right; right; right; (split; [done|solve_elem]).
  - apply bank_columns_final_table.
  - pose proof (prepared_domain (allowed_bank_codes init) (after_ratings t)) as H1.
    pose proof (final_table_text_ok t Hcol) as H2.
    pose proof (final_table_filled t) as H3.
    pose proof (all_rows_cond _ _ _ (final_table_rating_ok t)) as H4.
    pose proof (all_rows_cond _ _ _ (final_table_date_ok t)) as H5.
    pose proof (all_rows_cond _ _ _ (final_table_bank_ok t)) as H6.
    fold (final_table t) in H1. rewrite all_rows_elem in *.
    intros i r Hin. unfold row_normal.
    destruct (H3 i r Hin) as [Hu Ht].
    split_and!;
      [exact (H1 i r Hin)|exact (H2 i r Hin)|exact Hu|exact Ht
      |exact (H4 i r Hin)|exact (H5 i r Hin)|exact (H6 i r Hin)].
  - rewrite sort_keys_final_table. unfold final_table, prepared. cbn [rows].
    apply (Sorted_zip_snd (λ a b, row_leb (sort_keys (after_ratings t)) a b = true)).
    + by rewrite length_seq, length_fmap.
    + apply (Sorted_fmap snd (λ a b : nat * row,
               row_leb (sort_keys (after_ratings t)) a.2 b.2 = true)); [done|].
      apply final_rows_Sorted.
  - apply labels_prepared.
Qed.
End FinalTableNormalized.

(** ** A second run on a normalized table *)

Lemma fmap_fixed {A} (f : A → A) (l : list A) : (∀ x, x ∈ l → f x = x) → f <$> l = l.
Proof.
  intros H. rewrite <- (list_fmap_id l) at 2. apply list_fmap_ext.
  intros i x Hx. apply H. by eapply list_elem_of_lookup_2.
Qed.

Lemma omap_fixed {A} (f : A → option A) (l : list A) :
  (∀ x, x ∈ l → f x = Some x) → omap f l = l.
Proof.
  induction l as [|x l IH]; intros H; [done|]. csimpl.
  rewrite (H x) by left. f_equal. apply IH. intros y Hy. apply H. by right.
Qed.




Section SecondRun.
Context `{env : PandasEnv}.

Lemma normalized_no_reply T : normalized T → has_column "reply_content" T = false.
Proof.
  intros HT. apply has_column_false. intros Hin.
  apply (norm_columns T HT) in Hin. revert Hin. absurd_elem.
Qed.






Lemma astype_int_inject_Z z : astype_int (inject_Z z) = z.
Proof. unfold astype_int, inject_Z. simpl. apply Z.quot_1_r. Qed.

End SecondRun.

Lemma filter_ext_in {A} (P Q : A → Prop) `{∀ x, Decision (P x)} `{∀ x, Decision (Q x)}
      (l : list A) :
  (∀ x, x ∈ l → (P x ↔ Q x)) → filter P l = filter Q l.
Proof.
  induction l as [|x l IH]; intros Hl; [done|].
  rewrite !filter_cons. rewrite IH by (intros y Hy; apply Hl; by right).
  destruct (decide (P x)) as [HP|HP].
  - rewrite decide_True; [done|]. apply Hl; [by left|done].
  - rewrite decide_False; [done|]. intros HQ. apply HP. apply Hl; [by left|done].
Qed.


Section SecondRunFinal.
Context `{env : PandasEnv}.







End SecondRunFinal.



(** The keys that [sort_values] compares in [process] are of one type:
    the bank codes are strings and the dates are dates. *)
Lemma process_keys_typed `{env : PandasEnv} t self :
  process (Some t) true init = Ok (true, self) →
  ∃ d, df self = Some d
       ∧ (has_column "bank_code" d = true →
          all_rows (λ r, ∃ code, cell "bank_code" r = VStr code) d)
       ∧ (has_column "review_date" d = true →
          all_rows (λ r, ∃ dd, cell "review_date" r = VDate dd) d).
Proof.
  intros Hrun. destruct (process_true_inv _ _ _ Hrun) as (t' & Ht & _ & Hcol).
  simplify_eq.
  destruct (process_trace t' true Hcol)
    as (_ & _ & _ & _ & _ & _ & self' & _ & _ & _ & _ & _ & _ & _ & _ & _ & _ & _
        & Hp & Hdf & _).
  rewrite Hp in Hrun. simplify_eq.
  exists (final_table t'). split; [done|].
  pose proof (norm_rows _ (final_table_normalized t' Hcol)) as Hrows.
  split; intros Hc; (eapply all_rows_impl; [|exact Hrows]).
  - intros r (_ & _ & _ & _ & _ & _ & Hb). destruct (Hb Hc) as (code & Hcode & _).
    exists code. by apply cell_lookup.
  - intros r (_ & _ & _ & _ & _ & Hd & _). destruct (Hd Hc) as (dd & Hdd & _).
    exists dd. by apply cell_lookup.
Qed.

Definition dates_example : DataFrame :=
  table ["review_text"; "review_date"]
    [ [VStr "works well"; VStr "2024-01-05"];
      [VStr "crashes"; VStr "last week"];
      [VStr "fine"; VDate (Date 2023 11 30)];
      [VStr "slow"; VNull] ].


Example dates_example_normalized :
  (λ s, (λ d, (λ ir : nat * row, (ir.1, cell "review_date" ir.2, cell "review_year" ir.2))
              <$> rows d) <$> df s)
    <$> (match normalize_dates (env := simple_env) (set_df dates_example init) with
         | Ok s => Some s
         | Raise _ => None
         end)
  = Some (Some [ (0, VDate (Date 2024 1 5), VInt 2024);
                 (2, VDate (Date 2023 11 30), VInt 2023) ]).
Proof. vm_compute. reflexivity. Qed.

(** * Further properties of the pipeline *)

(** ** Outcomes of [process] and [main] *)

Ltac read_stats :=
  repeat (rewrite stats_get_set || rewrite stats_get_set_df
          || rewrite stats_get_set_ne by discriminate).

Section Outcomes.
Context `{env : PandasEnv}.

(** The counters that [process] leaves besides those of
    [process_trace]. *)
Lemma process_counts t writable :
  has_column "review_text" t = true →
  ∃ self,
    process (Some t) writable init = Ok (writable, self) ∧
    df self = Some (final_table t) ∧
    stats_get "count_after_missing" self = len (after_repair t) ∧
    stats_get "count_after_cleaning" self = len (after_text t) ∧
    (writable = false → stats self !! "final_count" = None).
Proof.
  intros Hcol.
  set (s0 := (load_data (Some t) init).2).
  assert (∃ s1, check_missing_data s0 = Ok s1 ∧ df s1 = Some t
                ∧ allowed_bank_codes s1 = allowed_bank_codes init
                ∧ stats s1 !! "final_count" = None)
    as (s1 & H1 & Hdf1 & Ha1 & Hf1).
  { eexists. split; [reflexivity|]. done. }
  pose proof (handle_missing_values_spec s1 t Hdf1) as H2.
  match type of H2 with _ = Ok ?s => set (s2 := s) in H2 end.
  pose proof (normalize_dates_dated s2 (repaired t) eq_refl) as H3.
  match type of H3 with _ = Ok ?s => set (s3 := s) in H3 end.
  rewrite <- has_review_text_after_dates in Hcol.
  pose proof (clean_text_spec s3 (after_dates t) eq_refl Hcol) as H4.
  match type of H4 with _ = Ok ?s => set (s4 := s) in H4 end.
  destruct (validate_ratings_rated s4 (after_text t) eq_refl)
    as (s5 & H5 & Hdf5 & Hallowed & Hother & Hnone & Hsome).
  pose proof (prepare_final_output_spec s5 _ Hdf5) as H6.
  match type of H6 with _ = Ok ?s => set (s6 := s) in H6 end.
  assert (Hfinal : prepared (allowed_bank_codes s5) (rated (after_text t)) = final_table t).
  { unfold final_table, after_ratings. by rewrite Hallowed, <- Ha1. }
  assert (Hs4 : stats_get "count_after_missing" s4 = len (after_repair t)
                ∧ stats_get "count_after_cleaning" s4 = len (after_text t)
                ∧ stats s4 !! "final_count" = None).
  { unfold s4, s3, s2. split_and!; [by read_stats|by read_stats|].
    cbn [stats set_stat set_df]. by rewrite !lookup_insert_ne by discriminate. }
  destruct Hs4 as (Hm4 & Hc4 & Hf4).
  assert (Hf5 : stats s5 !! "final_count" = None).
  { destruct (has_column "rating" (after_text t)) eqn:Hr.
    - rewrite (validate_ratings_spec s4 (after_text t) eq_refl Hr) in H5.
      injection H5 as <-. cbn [stats set_stat set_df].
      by rewrite lookup_insert_ne by discriminate.
    - by rewrite (Hnone eq_refl). }
  assert (Hdf6 : df s6 = Some (final_table t)).
  { unfold s6. cbn [df set_df]. by rewrite Hfinal. }
  exists (if writable then set_stat "final_count" (Count (len (final_table t))) s6 else s6).
  split.
  { unfold process. fold s0. change (load_data (Some t) init) with (true, s0).
    cbn [negb]. rewrite H1. cbn [mbind result_bind].
    rewrite H2. cbn [mbind result_bind]. rewrite H3. cbn [mbind result_bind].
    rewrite H4. cbn [mbind result_bind]. rewrite H5. cbn [mbind result_bind].
    rewrite H6. cbn [mbind result_bind].
    unfold save_data, s6. cbn [df set_df]. rewrite Hfinal.
    by destruct writable. }
  destruct writable.
  - split; [exact Hdf6|]. read_stats.
    unfold s6. rewrite !stats_get_set_df.
    rewrite (Hother "count_after_missing"), (Hother "count_after_cleaning") by discriminate.
    split_and!; [exact Hm4|exact Hc4|discriminate].
  - split; [exact Hdf6|].
    unfold s6. rewrite !stats_get_set_df.
    rewrite (Hother "count_after_missing"), (Hother "count_after_cleaning") by discriminate.
    split_and!; [exact Hm4|exact Hc4|]. intros _. exact Hf5.
Qed.




(** X4. The counters of a successful run fit together: the count after
    the missing-value stage is the original count less the rows that
    stage removed, the count after cleaning is at most that, and the
    final count is at most the count after cleaning. *)
Theorem counters_consistent file self :
  process file true init = Ok (true, self) →
  stats_get "count_after_missing" self + stats_get "rows_removed_missing" self
  = stats_get "original_count" self
  ∧ stats_get "count_after_cleaning" self + stats_get "empty_reviews_removed" self
    ≤ stats_get "count_after_missing" self
  ∧ stats_get "final_count" self + stats_get "invalid_ratings_removed" self
    ≤ stats_get "count_after_cleaning" self.
Proof.
  intros Hrun. destruct (process_true_inv _ _ _ Hrun) as (t & -> & _ & Hcol).
  destruct (process_counts t true Hcol) as (self1 & Hp & Hdf & Hm & Hc & _).
  destruct (process_trace t true Hcol)
    as (_ & _ & _ & _ & _ & _ & self' & _ & _ & _ & _ & _ & _ & _ & _ & _ & _ & _
        & Hp' & _ & Ho & Hrm & He & Hi & Hf).
  rewrite Hp in Hp', Hrun. simplify_eq. specialize (Hf eq_refl).
  rewrite Hm, Hc, Ho, Hrm, He, Hi, Hf.
  pose proof (len_repaired_le t) as L2.
  pose proof (len_dated_le (after_repair t)) as L3.
  pose proof (len_cleaned_le (after_dates t)) as L4.
  pose proof (len_rated_le (after_text t)) as L5.
  pose proof (len_prepared_le (allowed_bank_codes init) (after_ratings t)) as L6.
  fold (after_repair t) in L2. fold (after_dates t) in L3. fold (after_text t) in L4.
  fold (after_ratings t) in L5. fold (final_table t) in L6.
  lia.
Qed.
End Outcomes.


Lemma counters_consistent_witness :
  stats_get "count_after_missing" (processed uncounted_example)
  + stats_get "rows_removed_missing" (processed uncounted_example)
  = stats_get "original_count" (processed uncounted_example)
  ∧ stats_get "count_after_cleaning" (processed uncounted_example)
    + stats_get "empty_reviews_removed" (processed uncounted_example)
    ≤ stats_get "count_after_missing" (processed uncounted_example)
  ∧ stats_get "final_count" (processed uncounted_example)
    + stats_get "invalid_ratings_removed" (processed uncounted_example)
    ≤ stats_get "count_after_cleaning" (processed uncounted_example).
Proof.
  apply (counters_consistent (env := simple_env) (Some uncounted_example)).
  vm_compute. reflexivity.
Defined.

(** ** The report of missing values and the rows that are removed *)

Lemma lookup_list_to_map_fmap {V} (f : string → V) (l : list string) c :
  (list_to_map ((λ c, (c, f c)) <$> l) : gmap string V) !! c
  = if bool_decide (c ∈ l) then Some (f c) else None.
Proof.
  induction l as [|x l IH]; [done|]. rewrite fmap_cons, list_to_map_cons.
  destruct (decide (c = x)) as [->|Hne].
  - rewrite lookup_insert_eq. by rewrite bool_decide_eq_true_2 by left.
  - rewrite lookup_insert_ne by done. rewrite IH.
    apply (f_equal (λ b : bool, if b then Some (f c) else None)).
    apply bool_decide_ext. rewrite elem_of_cons. tauto.
Qed.

Lemma length_filter_impl {A} (P Q : A → Prop) `{∀ x, Decision (P x)} `{∀ x, Decision (Q x)}
    (l : list A) :
  (∀ x, P x → Q x) → length (filter P l) ≤ length (filter Q l).
Proof.
  intros HPQ. induction l as [|x l IH]; [done|]. rewrite !filter_cons.
  destruct (decide (P x)) as [HP|HP], (decide (Q x)) as [HQ|HQ]; simpl; try lia.
  exfalso. by apply HQ, HPQ.
Qed.

(** The rows with a null in one of the columns [cs] are at most as many
    as the nulls of these columns together. *)
Lemma incomplete_le_nulls cs (l : list (nat * row)) :
  length (filter (λ ir : nat * row, ¬ complete cs ir.2) l)
  ≤ sum_list ((λ c, length (filter (λ ir : nat * row, isna (cell c ir.2)) l)) <$> cs).
Proof.
  induction l as [|[i r] l IH].
  { induction cs as [|c cs IHc]; [done|]. rewrite fmap_cons. simpl. exact IHc. }
  rewrite filter_cons. simpl.
  assert (Hsum : ∀ cs',
    sum_list ((λ c, length (filter (λ ir : nat * row, isna (cell c ir.2)) ((i, r) :: l))) <$> cs')
    = sum_list ((λ c, length (filter (λ ir : nat * row, isna (cell c ir.2)) l)) <$> cs')
      + length (filter (λ c, isna (cell c r)) cs')).
  { induction cs' as [|c cs' IHc]; [done|].
    rewrite !fmap_cons, !filter_cons. simpl. rewrite IHc.
    destruct (decide (isna (cell c r))); simpl; lia. }
  rewrite Hsum. destruct (decide (¬ complete cs r)) as [Hinc|Hc]; simpl; [|lia].
  assert (0 < length (filter (λ c, isna (cell c r)) cs)); [|lia].
  clear -Hinc. induction cs as [|c cs IHc]; [by destruct Hinc|].
  rewrite filter_cons. destruct (decide (isna (cell c r))) as [Hn|Hn]; simpl; [lia|].
  apply IHc. intros Hcs. apply Hinc. unfold complete in *. simpl.
  apply Is_true_true. apply Is_true_true in Hcs. rewrite Hcs.
  by destruct (isna (cell c r)).
Qed.

(** X5. [check_missing_data] never fails on a loaded table and leaves
    the table as it is; what it records under [missing_before] has one
    entry for each column of the table, the number of nulls of that
    column, which is at most the number of rows. *)
Theorem check_missing_data_report self d :
  df self = Some d →
  ∃ missing,
    check_missing_data self = Ok (set_stat "missing_before" (PerColumn missing) self)
    ∧ (∀ c, missing !! c = if has_column c d then Some (null_count c d) else None)
    ∧ (∀ c n, missing !! c = Some n → n ≤ len d).
Proof.
  intros Hdf. unfold check_missing_data, with_df. rewrite Hdf.
  eexists. split; [reflexivity|].
  assert (Hlook : ∀ c,
    (list_to_map ((λ c, (c, null_count c d)) <$> columns d) : gmap string nat) !! c
    = if has_column c d then Some (null_count c d) else None).
  { intros c. apply (lookup_list_to_map_fmap (λ c, null_count c d)). }
  split; [exact Hlook|].
  intros c n. rewrite Hlook. destruct (has_column c d); [|done].
  intros [= <-]. apply length_filter.
Qed.

Lemma check_missing_data_report_witness :
  ∃ missing,
    check_missing_data (set_df missing_example init)
    = Ok (set_stat "missing_before" (PerColumn missing) (set_df missing_example init))
    ∧ (∀ c, missing !! c = if has_column c missing_example
                           then Some (null_count c missing_example) else None)
    ∧ (∀ c n, missing !! c = Some n → n ≤ len missing_example).
Proof.
  apply (check_missing_data_report (set_df missing_example init) missing_example).
  reflexivity.
Defined.

(** X6. On a table whose [bank_code] is not derived (it has the column
    already, or has no [bank_name] either), the rows that
    [handle_missing_values] removes are bounded by the report of
    [check_missing_data]: they are at least the nulls of each critical
    column of the table and at most the nulls of all of them
    together. *)
Theorem removed_within_report self d :
  df self = Some d →
  has_column "bank_code" d || negb (has_column "bank_name" d) = true →
  ∃ self',
    handle_missing_values self = Ok self'
    ∧ (∀ c, c ∈ critical_columns d →
            null_count c d ≤ stats_get "rows_removed_missing" self')
    ∧ stats_get "rows_removed_missing" self'
      ≤ sum_list ((λ c, null_count c d) <$> critical_columns d).
Proof.
  intros Hdf Hnot. eexists. split; [by apply handle_missing_values_spec|].
  read_stats.
  assert (Hd1 : derive_bank_code d = d).
  { unfold derive_bank_code.
    destruct (has_column "bank_code" d), (has_column "bank_name" d); done. }
  rewrite len_repaired, Hd1. unfold len.
  rewrite <- (length_filter_split
                (λ ir : nat * row, complete (critical_columns d) ir.2) (rows d)).
  match goal with
  | |- context [?a + ?b - ?a] => replace (a + b - a) with b by lia
  end.
  split.
  - intros c Hc. unfold null_count. apply length_filter_impl.
    intros [i r] Hna Hcomplete. simpl in *.
    apply Is_true_true in Hcomplete. unfold complete in Hcomplete.
    rewrite forallb_forall in Hcomplete.
    specialize (Hcomplete c (proj1 (list_elem_of_In _ _) Hc)).
    by destruct (isna (cell c r)).
  - apply incomplete_le_nulls.
Qed.

Lemma removed_within_report_witness :
  ∃ self',
    handle_missing_values (set_df missing_example init) = Ok self'
    ∧ (∀ c, c ∈ critical_columns missing_example →
            null_count c missing_example ≤ stats_get "rows_removed_missing" self')
    ∧ stats_get "rows_removed_missing" self'
      ≤ sum_list ((λ c, null_count c missing_example) <$> critical_columns missing_example).
Proof.
  apply (removed_within_report (set_df missing_example init) missing_example);
    reflexivity.
Defined.

(** ** The bank code derived from the bank name *)

(** The display names of [BANK_NAMES]. *)
Definition configured_name (v : value) : bool :=
  match v with
  | VStr name => bool_decide (name ∈ snd <$> BANK_NAMES)
  | _ => false
  end.

Lemma inverse_lookup_configured v :
  negb (isna (fillna VNull (map_dict (dict_of_items (prod_swap <$> BANK_NAMES)) v)))
  = configured_name v.
Proof.
  destruct v as [| | |name|]; try done. unfold map_dict, configured_name.
  unfold dict_of_items, BANK_NAMES. simpl.
  repeat (rewrite lookup_insert; case_decide;
          [subst; by vm_compute|]).
  rewrite lookup_empty. simpl. symmetry. apply bool_decide_eq_false.
  rewrite !elem_of_cons, elem_of_nil. intros [?|[?|[?|[]]]]; by subst.
Qed.

Lemma complete_insert_ne cs c v (r : row) :
  c ∉ cs → complete cs (<[c := v]> r) = complete cs r.
Proof.
  intros Hc. unfold complete. induction cs as [|c' cs IH]; [done|].
  apply not_elem_of_cons in Hc as [Hne Hc]. cbn [forallb].
  rewrite cell_insert_ne by done. by rewrite IH.
Qed.

(** X7. A table with a [bank_name] column and no [bank_code] column gets
    its [bank_code] from the display name, and the new column is a
    critical one: [handle_missing_values] keeps exactly the rows whose
    [bank_name] is one of the configured display names, letter for
    letter, and that have no null in [review_text] and [rating] where
    the table has them. In every row that is kept the code and the
    name belong together in [BANK_NAMES]. *)
Theorem unnamed_bank_rows_dropped self d :
  df self = Some d →
  has_column "bank_name" d = true → has_column "bank_code" d = false →
  ∃ self' d',
    handle_missing_values self = Ok self' ∧ df self' = Some d'
    ∧ has_column "bank_code" d' = true
    ∧ labels d'
      = fst <$> filter (λ ir : nat * row,
                          complete (filter (λ c, has_column c d) ["review_text"; "rating"]) ir.2
                          && configured_name (cell "bank_name" ir.2))
                       (rows d)
    ∧ all_rows bank_paired d'.
Proof.
  intros Hdf Hbn Hbc. eexists _, (repaired d).
  split; [by apply handle_missing_values_spec|]. split; [done|].
  split.
  { apply has_column_true, elem_of_columns_repaired. right. left.
    split; [reflexivity|exact Hbn]. }
  split; [|by apply repaired_bank_paired].
  unfold labels, repaired. cbn [rows]. rewrite <- list_fmap_compose.
  unfold derive_bank_code. rewrite Hbn, Hbc. cbn [negb andb].
  set (f := λ r : row, fillna VNull (map_dict (dict_of_items (prod_swap <$> BANK_NAMES))
                                       (cell "bank_name" r))).
  rewrite rows_assign, filter_fmap, <- list_fmap_compose.
  transitivity (fst <$> filter (λ ir : nat * row,
                  complete (critical_columns (assign "bank_code" f d))
                           (<["bank_code" := f ir.2]> ir.2)) (rows d)).
  { by apply list_fmap_ext. }
  f_equal. apply list_filter_iff. intros [i r]. cbn [snd].
  rewrite !Is_true_true.
  match goal with |- ?a = true ↔ ?b = true => enough (a = b) as -> by done end.
  unfold critical_columns.
  assert (Hcrit : filter (λ c, has_column c (assign "bank_code" f d))
                    ["review_text"; "rating"; "bank_code"]
                  = filter (λ c, has_column c d) ["review_text"; "rating"] ++ ["bank_code"]).
  { rewrite !filter_cons, !filter_nil. rewrite !has_column_assign.
    rewrite (bool_decide_eq_false_2 ("review_text" = "bank_code")) by done.
    rewrite (bool_decide_eq_false_2 ("rating" = "bank_code")) by done.
    rewrite (bool_decide_eq_true_2 ("bank_code" = "bank_code")) by done.
    cbn [orb].
    destruct (has_column "review_text" d), (has_column "rating" d); done. }
  rewrite Hcrit. unfold complete. rewrite forallb_app. cbn [forallb].
  rewrite cell_insert, andb_true_r. unfold f at 2. rewrite inverse_lookup_configured.
  f_equal. apply (complete_insert_ne _ "bank_code").
  intros Hin. apply list_elem_of_filter in Hin as [_ Hin]. revert Hin. absurd_elem.
Qed.

Definition named_only_example : DataFrame :=
  table ["review_text"; "bank_name"]
    [ [VStr "good"; VStr "Dashen Bank"];
      [VStr "slow"; VStr "dashen bank"];
      [VNull; VStr "Bank of Abyssinia"];
      [VStr "fine"; VStr "Commercial Bank of Ethiopia"] ].

Lemma unnamed_bank_rows_dropped_witness :
  ∃ self' d',
    handle_missing_values (set_df named_only_example init) = Ok self'
    ∧ df self' = Some d'
    ∧ has_column "bank_code" d' = true
    ∧ labels d'
      = fst <$> filter (λ ir : nat * row,
                          complete (filter (λ c, has_column c named_only_example)
                                      ["review_text"; "rating"]) ir.2
                          && configured_name (cell "bank_name" ir.2))
                       (rows named_only_example)
    ∧ all_rows bank_paired d'.
Proof.
  apply (unnamed_bank_rows_dropped (set_df named_only_example init) named_only_example);
    reflexivity.
Defined.

Example named_only_example_kept :
  labels (repaired named_only_example) = [0; 3].
Proof. vm_compute. reflexivity. Qed.

(** ** What sanitization does to a text *)










Section TextContract.
Context `{env : PandasEnv}.




End TextContract.

Definition blank_text_example : DataFrame :=
  table ["review_text"]
    [ [VStr "  very   good app "]; [VStr "   "]; [VNull]; [VInt 5] ].


Example blank_text_example_cleaned :
  (λ ir : nat * row, (ir.1, cell "review_text" ir.2, cell "text_length" ir.2))
    <$> rows (cleaned (env := simple_env) blank_text_example)
  = [ (0, VStr "very good app", VInt 13); (3, VStr "5", VInt 1) ].
Proof. vm_compute. reflexivity. Qed.

(** ** Running a stage again *)

Lemma with_column_present c cols : c ∈ cols → with_column c cols = cols.
Proof. intros Hc. unfold with_column. by rewrite bool_decide_eq_true_2. Qed.

Lemma set_df_set_df d d' self : set_df d (set_df d' self) = set_df d self.
Proof. done. Qed.

Lemma fill_optional_lookup d (r : row) c :
  c ∈ ["user_name"; "thumbs_up"; "reply_content"] →
  ∃ v, fill_optional d r !! c = Some v ∧ v ≠ VNull.
Proof.
  rewrite !elem_of_cons, elem_of_nil. unfold fill_optional.
  intros [->|[->|[->|[]]]].
  - rewrite !lookup_insert_ne by done. rewrite lookup_insert_eq. eexists. split; [done|].
    destruct (has_column "user_name" d); [|done]. by destruct (cell "user_name" r).
  - rewrite lookup_insert_ne by done. rewrite lookup_insert_eq. eexists. split; [done|].
    destruct (has_column "thumbs_up" d); [|done]. by destruct (cell "thumbs_up" r).
  - rewrite lookup_insert_eq. eexists. split; [done|].
    destruct (has_column "reply_content" d); [|done]. by destruct (cell "reply_content" r).
Qed.

Lemma fillna_filled x v : v ≠ VNull → fillna x v = v.
Proof. by destruct v. Qed.

Lemma complete_fill_optional cs d (r : row) :
  (∀ c, c ∈ cs → c ∈ ["review_text"; "rating"; "bank_code"]) →
  complete cs (fill_optional d r) = complete cs r.
Proof.
  intros Hcs. unfold fill_optional.
  rewrite !complete_insert_ne; [done|..]; intros Hin; apply Hcs in Hin; revert Hin; absurd_elem.
Qed.

(** The table of [handle_missing_values] is one that the stage leaves
    as it is. *)
Lemma repaired_repaired d : repaired (repaired d) = repaired d.
Proof.
  assert (Hd : derive_bank_code (repaired d) = repaired d).
  { unfold derive_bank_code.
    destruct (has_column "bank_code" (repaired d)) eqn:Hbc; [done|].
    destruct (has_column "bank_name" (repaired d)) eqn:Hbn; [|done].
    exfalso. apply has_column_false in Hbc. apply Hbc.
    apply has_column_true in Hbn. apply elem_of_columns_repaired in Hbn.
    apply elem_of_columns_repaired.
    destruct Hbn as [Hbn|[[? _]|Hbn]]; [|done|revert Hbn; absurd_elem].
    right. left. split; [done|]. by apply has_column_true. }
  assert (Hhas : ∀ c, c ∈ ["user_name"; "thumbs_up"; "reply_content"] →
                      has_column c (repaired d) = true).
  { intros c Hc. apply has_column_true, elem_of_columns_repaired. by right; right. }
  assert (Hcrit : critical_columns (repaired d) = critical_columns (derive_bank_code d)).
  { unfold critical_columns. apply filter_ext_in. intros c Hc.
    rewrite !Is_true_true, !has_column_true.
    rewrite elem_of_columns_repaired, elem_of_columns_derive_bank_code.
    split; [|tauto]. intros [?|[?|Hin]]; [tauto|tauto|].
    exfalso. revert Hc Hin. rewrite !elem_of_cons, !elem_of_nil.
    intros [->|[->|[->|[]]]] [?|[?|[?|[]]]]; done. }
  unfold repaired at 1. rewrite Hd, Hcrit.
  set (l := filter (λ ir : nat * row, complete (critical_columns (derive_bank_code d)) ir.2)
              (rows (derive_bank_code d))).
  assert (Hrows : rows (repaired d)
                  = (λ ir : nat * row, (ir.1, fill_optional (derive_bank_code d) ir.2)) <$> l).
  { reflexivity. }
  symmetry. apply DataFrame_eq.
  - rewrite (with_column_present "user_name" (columns (repaired d)))
      by (apply has_column_true, Hhas; solve_elem).
    rewrite (with_column_present "thumbs_up" (columns (repaired d)))
      by (apply has_column_true, Hhas; solve_elem).
    rewrite (with_column_present "reply_content" (columns (repaired d)))
      by (apply has_column_true, Hhas; solve_elem).
    reflexivity.
  - symmetry. rewrite Hrows at 1. rewrite filter_fmap, filter_all.
    + rewrite <- list_fmap_compose. apply list_fmap_ext. intros k [i r] _. cbn.
      f_equal.
      set (r' := fill_optional (derive_bank_code d) r).
      destruct (fill_optional_lookup (derive_bank_code d) r "user_name") as (u & Hu & Hun);
        [solve_elem|].
      destruct (fill_optional_lookup (derive_bank_code d) r "thumbs_up") as (t & Ht & Htn);
        [solve_elem|].
      destruct (fill_optional_lookup (derive_bank_code d) r "reply_content") as (y & Hy & Hyn);
        [solve_elem|].
      fold r' in Hu, Ht, Hy. unfold fill_optional at 1.
      rewrite !Hhas by solve_elem.
      rewrite (cell_lookup _ _ _ Hu), (cell_lookup _ _ _ Ht), (cell_lookup _ _ _ Hy).
      rewrite !fillna_filled by done.
      rewrite (insert_id r' "user_name") by done.
      rewrite (insert_id r' "thumbs_up") by done.
      by rewrite (insert_id r' "reply_content").
    + apply Forall_forall. intros [i r] Hin. cbn [fst snd].
      apply list_elem_of_filter in Hin as [Hc _]. cbn [snd] in Hc.
      apply Is_true_true. apply Is_true_true in Hc.
      rewrite complete_fill_optional; [done|].
      intros c Hin. unfold critical_columns in Hin.
      by apply list_elem_of_filter in Hin as [_ Hin].
Qed.

Section StageFixed.
Context `{env : PandasEnv}.

Lemma dated_fixed d :
  (has_column "review_date" d = true →
   has_column "review_year" d = true ∧ has_column "review_month" d = true
   ∧ all_rows date_ok d) →
  dated d = d.
Proof.
  intros H. unfold dated. destruct (has_column "review_date" d) eqn:Hrd; [|done].
  destruct (H eq_refl) as (Hy & Hm & Hok). rewrite all_rows_elem in Hok.
  destruct d as [cols rs]. cbn [columns rows] in *. f_equal.
  - apply has_column_true in Hy, Hm. cbn [columns] in Hy, Hm.
    by rewrite (with_column_present "review_year"), with_column_present.
  - apply omap_fixed. intros [i r] Hin.
    destruct (Hok i r Hin) as (dd & H1 & H2 & H3).
    unfold normalize_row. cbn [fst snd]. rewrite (cell_lookup _ _ _ H1). cbn.
    f_equal. f_equal. unfold dated_row. cbn [dt_date midnight].
    rewrite (insert_id r "review_date") by done.
    rewrite (insert_id r "review_year") by done.
    by rewrite (insert_id r "review_month").
Qed.

Lemma cleaned_fixed d :
  has_column "text_length" d = true → all_rows text_ok d → cleaned d = d.
Proof.
  intros Hlen Hok. rewrite all_rows_elem in Hok.
  unfold cleaned. destruct d as [cols rs]. cbn [columns rows] in *. f_equal.
  - apply with_column_present. by apply has_column_true in Hlen.
  - assert (Hfix : ∀ i r, (i, r) ∈ rs → cleaned_text r ≠ "" ∧ clean_row r = r).
    { intros i r Hin. destruct (Hok i r Hin) as (s & H1 & H2 & H3 & H4).
      assert (Hs : cleaned_text r = s).
      { unfold cleaned_text. by rewrite (cell_lookup _ _ _ H1). }
      split; [by rewrite Hs|]. unfold clean_row. rewrite Hs.
      rewrite (insert_id r "review_text") by done. by rewrite insert_id. }
    rewrite filter_all.
    + apply fmap_fixed. intros [i r] Hin. cbn [fst snd]. f_equal. by apply (Hfix i).
    + apply Forall_forall. intros [i r] Hin. cbn [snd]. by apply (Hfix i).
Qed.

Lemma rated_fixed d :
  (has_column "rating" d = true → all_rows rating_ok d) → rated d = d.
Proof.
  intros H. unfold rated. destruct (has_column "rating" d) eqn:Hr; [|done].
  pose proof (H eq_refl) as Hok. rewrite all_rows_elem in Hok.
  destruct d as [cols rs]. cbn [columns rows] in *. f_equal.
  assert (Hfix : ∀ i r, (i, r) ∈ rs →
            valid_rating (rating_number r) = true ∧ with_rating_number (i, r) = (i, r)).
  { intros i r Hin. destruct (Hok i r Hin) as (z & Hz & Hrange).
    assert (Hn : rating_number r = z).
    { unfold rating_number. rewrite (cell_lookup _ _ _ Hz). cbn. apply astype_int_inject_Z. }
    split; [rewrite Hn; by apply valid_rating_spec|].
    unfold with_rating_number. cbn [fst snd]. rewrite Hn. by rewrite insert_id. }
  rewrite filter_all.
  - apply fmap_fixed. intros [i r] Hin. by apply (Hfix i).
  - apply Forall_forall. intros [i r] Hin. cbn [snd]. apply Is_true_true. by apply (Hfix i).
Qed.

Lemma dated_dated d : dated (dated d) = dated d.
Proof.
  apply dated_fixed. intros Hrd.
  assert (Hrd0 : has_column "review_date" d = true).
  { apply has_column_true in Hrd. apply elem_of_columns_dated in Hrd.
    apply has_column_true. destruct Hrd as [?|[_ Hin]]; [done|]. revert Hin. absurd_elem. }
  split_and!.
  - apply has_column_true, elem_of_columns_dated. right. split; [done|solve_elem].
  - apply has_column_true, elem_of_columns_dated. right. split; [done|solve_elem].
  - by apply dated_date_ok.
Qed.

Lemma cleaned_cleaned d : cleaned (cleaned d) = cleaned d.
Proof.
  apply cleaned_fixed; [|apply cleaned_text_ok].
  apply has_column_true, elem_of_columns_cleaned. by right.
Qed.

Lemma rated_rated d : rated (rated d) = rated d.
Proof.
  apply rated_fixed. intros Hr. apply rated_rating_ok.
  unfold has_column in *. by rewrite columns_rated in Hr.
Qed.

(** X10. [handle_missing_values] is idempotent: run again on its own
    result it leaves the table as it is and removes no row. *)
Theorem handle_missing_values_again self s1 :
  handle_missing_values self = Ok s1 →
  ∃ s2, handle_missing_values s1 = Ok s2 ∧ df s2 = df s1
        ∧ stats_get "rows_removed_missing" s2 = 0
        ∧ stats_get "count_after_missing" s2 = stats_get "count_after_missing" s1.
Proof.
  intros Hrun. destruct (df self) as [d|] eqn:Hdf.
  - rewrite (handle_missing_values_spec self d Hdf) in Hrun. injection Hrun as <-.
    eexists. split; [by apply (handle_missing_values_spec _ (repaired d))|].
    rewrite repaired_repaired. split; [done|]. read_stats. split; [lia|done].
  - unfold handle_missing_values, with_df in Hrun. by rewrite Hdf in Hrun.
Qed.

(** X11. [normalize_dates] is idempotent: run again on its own result
    it changes nothing at all. *)
Theorem normalize_dates_again self s1 :
  normalize_dates self = Ok s1 → normalize_dates s1 = Ok s1.
Proof.
  intros Hrun. destruct (df self) as [d|] eqn:Hdf.
  - rewrite (normalize_dates_dated self d Hdf) in Hrun. injection Hrun as <-.
    rewrite (normalize_dates_dated _ (dated d)) by done.
    by rewrite dated_dated, set_df_set_df.
  - unfold normalize_dates, with_df in Hrun. by rewrite Hdf in Hrun.
Qed.

(** X12. [clean_text] is idempotent: run again on its own result it
    leaves the table as it is and removes no row. *)
Theorem clean_text_again self s1 :
  clean_text self = Ok s1 →
  ∃ s2, clean_text s1 = Ok s2 ∧ df s2 = df s1
        ∧ stats_get "empty_reviews_removed" s2 = 0
        ∧ stats_get "count_after_cleaning" s2 = stats_get "count_after_cleaning" s1.
Proof.
  intros Hrun. destruct (df self) as [d|] eqn:Hdf.
  - destruct (has_column "review_text" d) eqn:Hcol.
    + rewrite (clean_text_spec self d Hdf Hcol) in Hrun. injection Hrun as <-.
      eexists. split.
      { apply (clean_text_spec _ (cleaned d)); [done|].
        apply has_column_true, elem_of_columns_cleaned. left. by apply has_column_true. }
      rewrite cleaned_cleaned. split; [done|]. read_stats. split; [lia|done].
    + by rewrite (clean_text_missing self d Hdf Hcol) in Hrun.
  - unfold clean_text, with_df in Hrun. by rewrite Hdf in Hrun.
Qed.

(** X13. [validate_ratings] is idempotent: run again on its own result
    it leaves the table as it is; it finds no invalid rating, or, on a
    table without a [rating] column, changes nothing at all. *)
Theorem validate_ratings_again self s1 :
  validate_ratings self = Ok s1 →
  ∃ s2, validate_ratings s1 = Ok s2 ∧ df s2 = df s1
        ∧ (stats_get "invalid_ratings_removed" s2 = 0 ∨ s2 = s1).
Proof.
  intros Hrun. destruct (df self) as [d|] eqn:Hdf.
  - destruct (validate_ratings_rated self d Hdf) as (s1' & H1 & Hdf1 & _).
    rewrite Hrun in H1. injection H1 as <-.
    destruct (has_column "rating" (rated d)) eqn:Hr.
    + destruct (validate_ratings_rated s1 (rated d) Hdf1)
        as (s2 & H2 & Hdf2 & _ & _ & _ & Hsome).
      exists s2. split; [done|]. rewrite rated_rated in Hdf2.
      split; [by rewrite Hdf1|]. left.
      rewrite (Hsome Hr), rated_rated. apply Nat.sub_diag.
    + exists s1. split; [|split; [done|by right]].
      unfold validate_ratings, with_df. rewrite Hdf1, Hr. reflexivity.
  - unfold validate_ratings, with_df in Hrun. by rewrite Hdf in Hrun.
Qed.
End StageFixed.

(** The state that a stage returns; [init] when it raised. *)
Definition state_after (r : result ReviewPreprocessor) : ReviewPreprocessor :=
  match r with
  | Ok s => s
  | Raise _ => init
  end.

Lemma handle_missing_values_again_witness :
  ∃ s2, handle_missing_values
          (state_after (handle_missing_values (set_df missing_example init))) = Ok s2
        ∧ df s2 = df (state_after (handle_missing_values (set_df missing_example init)))
        ∧ stats_get "rows_removed_missing" s2 = 0
        ∧ stats_get "count_after_missing" s2
          = stats_get "count_after_missing"
              (state_after (handle_missing_values (set_df missing_example init))).
Proof.
  apply (handle_missing_values_again (set_df missing_example init)).
  vm_compute. reflexivity.
Defined.

Lemma normalize_dates_again_witness :
  normalize_dates (env := simple_env)
    (state_after (normalize_dates (env := simple_env) (set_df uncounted_example init)))
  = Ok (state_after (normalize_dates (env := simple_env) (set_df uncounted_example init))).
Proof.
  apply (normalize_dates_again (env := simple_env) (set_df uncounted_example init)).
  vm_compute. reflexivity.
Defined.

Lemma clean_text_again_witness :
  ∃ s2, clean_text (env := simple_env)
          (state_after (clean_text (env := simple_env) (set_df blank_text_example init)))
        = Ok s2
        ∧ df s2 = df (state_after (clean_text (env := simple_env)
                                     (set_df blank_text_example init)))
        ∧ stats_get "empty_reviews_removed" s2 = 0
        ∧ stats_get "count_after_cleaning" s2
          = stats_get "count_after_cleaning"
              (state_after (clean_text (env := simple_env) (set_df blank_text_example init))).
Proof.
  apply (clean_text_again (env := simple_env) (set_df blank_text_example init)).
  vm_compute. reflexivity.
Defined.

Lemma validate_ratings_again_witness :
  ∃ s2, validate_ratings (env := simple_env)
          (state_after (validate_ratings (env := simple_env) (set_df ratings_example init)))
        = Ok s2
        ∧ df s2 = df (state_after (validate_ratings (env := simple_env)
                                     (set_df ratings_example init)))
        ∧ (stats_get "invalid_ratings_removed" s2 = 0
           ∨ s2 = state_after (validate_ratings (env := simple_env)
                                 (set_df ratings_example init))).
Proof.
  apply (validate_ratings_again (env := simple_env) (set_df ratings_example init)).
  vm_compute. reflexivity.
Defined.

(** ** The rows and columns that [prepare_final_output] keeps *)

Lemma filter_list_insert_at {A} (P : A → Prop) `{∀ x, Decision (P x)} i (x : A) l :
  ¬ P x → filter P (list_insert_at i x l) = filter P l.
Proof.
  intros Hx. unfold list_insert_at.
  rewrite filter_app, filter_cons_False by done.
  by rewrite <- filter_app, take_drop.
Qed.

(** X14. The rows of the table that [prepare_final_output] leaves are
    the rows of the banks in [allowed_bank_codes], each cut down to the
    output columns once [bank_name] has been derived where it was
    missing: none is lost and none is repeated. With a [bank_code]
    column every row that stays has an allowed code, so a row whose
    code is null or is not a string goes too; without one no row is
    removed. A row has no cell outside the output columns. *)
Theorem prepare_final_output_rows self d :
  df self = Some d →
  ∃ d',
    prepare_final_output self = Ok (set_df d' self)
    ∧ snd <$> rows d'
      ≡ₚ (λ ir : nat * row,
            filter (λ kv : string * value, kv.1 ∈ columns d') (named_row d ir.2))
         <$> filter (λ ir : nat * row, known_bank (allowed_bank_codes self) d ir.2) (rows d)
    ∧ (has_column "bank_code" d = true → all_rows (bank_ok (allowed_bank_codes self)) d')
    ∧ (has_column "bank_code" d = false → len d' = len d)
    ∧ all_rows (λ r, ∀ c, c ∉ columns d' → r !! c = None) d'.
Proof.
  intros Hdf. exists (prepared (allowed_bank_codes self) d).
  split; [by apply prepare_final_output_spec|]. split.
  { rewrite rows_prepared, columns_prepared. unfold final_rows.
    rewrite stable_sort_Permutation, <- list_fmap_compose. reflexivity. }
  split; [apply prepared_bank_ok|]. split.
  - intros Hbc. rewrite len_prepared. unfold len. f_equal.
    apply filter_all, Forall_forall. intros [i r] _. cbn [snd].
    unfold known_bank. by rewrite Hbc.
  - rewrite columns_prepared. apply prepared_domain.
Qed.

(** X15. The columns of the table that [prepare_final_output] leaves:
    no column twice; the columns of the input that are among the twelve
    of [desired] and the optional ones, and [bank_name] whenever there
    is a [bank_code]; in the order of these two lists, whatever the
    order in the input, but for a [bank_name] that had to be derived.
    [reply_content], which [handle_missing_values] always adds, is
    never part of the output. *)
Theorem prepare_final_output_columns self d :
  df self = Some d →
  ∃ d',
    prepare_final_output self = Ok (set_df d' self)
    ∧ NoDup (columns d')
    ∧ (∀ c, c ∈ columns d'
            ↔ (c ∈ desired ++ optional_extras ∧ c ∈ columns d)
              ∨ (c = "bank_name" ∧ has_column "bank_code" d = true))
    ∧ filter (λ c, c ≠ "bank_name") (columns d') `sublist_of` desired ++ optional_extras
    ∧ (has_column "bank_name" d = true → columns d' `sublist_of` desired ++ optional_extras)
    ∧ "reply_content" ∉ columns d'.
Proof.
  intros Hdf. exists (prepared (allowed_bank_codes self) d).
  split; [by apply prepare_final_output_spec|]. rewrite columns_prepared.
  assert (Hsel : selected_columns d `sublist_of` desired ++ optional_extras).
  { unfold selected_columns. apply sublist_filter. }
  split; [apply NoDup_final_columns|]. split.
  { intros c. rewrite elem_of_final_columns, elem_of_selected_columns.
    unfold derives_bank_name. rewrite andb_true_iff, negb_true_iff.
    split.
    - intros [[-> [_ Hbc]]|?]; auto.
    - intros [?|[-> Hbc]]; [auto|].
      destruct (has_column "bank_name" d) eqn:Hbn; [|auto].
      right. split; [solve_elem|]. by apply has_column_true. }
  split.
  { unfold final_columns. destruct (derives_bank_name d).
    - rewrite filter_list_insert_at by (intros Hne; by apply Hne).
      etrans; [apply sublist_filter|exact Hsel].
    - etrans; [apply sublist_filter|exact Hsel]. }
  split.
  { intros Hbn. unfold final_columns, derives_bank_name. by rewrite Hbn. }
  intros Hin. apply final_columns_known in Hin. revert Hin. absurd_elem.
Qed.

Lemma prepare_final_output_rows_witness :
  ∃ d',
    prepare_final_output (set_df uncounted_example init)
    = Ok (set_df d' (set_df uncounted_example init))
    ∧ snd <$> rows d'
      ≡ₚ (λ ir : nat * row,
            filter (λ kv : string * value, kv.1 ∈ columns d')
              (named_row uncounted_example ir.2))
         <$> filter (λ ir : nat * row,
                       known_bank (allowed_bank_codes (set_df uncounted_example init))
                         uncounted_example ir.2)
                    (rows uncounted_example)
    ∧ (has_column "bank_code" uncounted_example = true →
       all_rows (bank_ok (allowed_bank_codes (set_df uncounted_example init))) d')
    ∧ (has_column "bank_code" uncounted_example = false → len d' = len uncounted_example)
    ∧ all_rows (λ r, ∀ c, c ∉ columns d' → r !! c = None) d'.
Proof.
  apply (prepare_final_output_rows (set_df uncounted_example init) uncounted_example).
  reflexivity.
Defined.

Lemma prepare_final_output_columns_witness :
  ∃ d',
    prepare_final_output (set_df three_column_example init)
    = Ok (set_df d' (set_df three_column_example init))
    ∧ NoDup (columns d')
    ∧ (∀ c, c ∈ columns d'
            ↔ (c ∈ desired ++ optional_extras ∧ c ∈ columns three_column_example)
              ∨ (c = "bank_name" ∧ has_column "bank_code" three_column_example = true))
    ∧ filter (λ c, c ≠ "bank_name") (columns d') `sublist_of` desired ++ optional_extras
    ∧ (has_column "bank_name" three_column_example = true →
       columns d' `sublist_of` desired ++ optional_extras)
    ∧ "reply_content" ∉ columns d'.
Proof.
  apply (prepare_final_output_columns (set_df three_column_example init) three_column_example).
  reflexivity.
Defined.

(** ** What every row of the output satisfies *)

Section Output.
Context `{env : PandasEnv}.


Lemma process_true_final file self :
  process file true init = Ok (true, self) →
  ∃ t, file = Some t ∧ has_column "review_text" t = true
       ∧ df self = Some (final_table t)
       ∧ stats_get "final_count" self = len (final_table t).
Proof.
  intros Hrun. destruct (process_true_inv _ _ _ Hrun) as (t & -> & _ & Hcol).
  exists t. split; [done|]. split; [done|].
  destruct (process_trace t true Hcol)
    as (_ & _ & _ & _ & _ & _ & self' & _ & _ & _ & _ & _ & _ & _ & _ & _ & _ & _
        & Hp & Hdf & _ & _ & _ & _ & Hf).
  rewrite Hp in Hrun. injection Hrun as <-. split; [exact Hdf|]. by apply Hf.
Qed.



(** X18. No stage creates a column of the data proper: in the table of
    a successful run [review_id], [review_text], [rating], [review_date]
    and [source] are columns exactly when they are columns of the input, and
    [bank_code] and [bank_name] exactly when the input has one of the
    two. Every column is one of the twelve of [desired] and the
    optional ones, so every other column of the input is dropped, and
    so is [reply_content]. *)
Theorem process_output_columns file self :
  process file true init = Ok (true, self) →
  ∃ t T,
    file = Some t ∧ df self = Some T
    ∧ (∀ c, c ∈ ["review_id"; "review_text"; "rating"; "review_date"; "source"] →
            (c ∈ columns T ↔ c ∈ columns t))
    ∧ (∀ c, c ∈ ["bank_code"; "bank_name"] →
            (c ∈ columns T ↔ "bank_code" ∈ columns t ∨ "bank_name" ∈ columns t))
    ∧ (∀ c, c ∈ columns T → c ∈ desired ++ optional_extras)
    ∧ "reply_content" ∉ columns T.
Proof.
  intros Hrun. destruct (process_true_final _ _ Hrun) as (t & -> & Hcol & Hdf & _).
  exists t, (final_table t). split; [done|]. split; [exact Hdf|].
  pose proof (final_table_normalized t Hcol) as HT.
  assert (Hbc : "bank_code" ∈ columns (final_table t)
                ↔ "bank_code" ∈ columns t ∨ "bank_name" ∈ columns t).
  { rewrite <- !has_column_true.
    rewrite has_column_final_table by (solve_elem || done).
    rewrite has_bank_code_after_ratings. apply orb_true_iff. }
  split.
  { intros c Hc. rewrite !elem_of_cons, elem_of_nil in Hc.
    destruct Hc as [->|[->|[->|[->|[->|[]]]]]];
      (rewrite <- !has_column_true;
       rewrite has_column_final_table by (solve_elem || done);
       rewrite !has_column_true, elem_of_columns_after_ratings;
       split; [|auto];
       rewrite !elem_of_cons, !elem_of_nil;
       intros [?|[[? _]|[[?|[?|[?|[?|[]]]]]|[_ [?|[?|[]]]]]]]; done). }
  split.
  { intros c Hc. rewrite !elem_of_cons, elem_of_nil in Hc.
    destruct Hc as [->|[->|[]]]; [exact Hbc|].
    rewrite <- Hbc, <- !has_column_true. by rewrite bank_columns_final_table. }
  split; [exact (norm_columns _ HT)|].
  apply has_column_false. by apply normalized_no_reply.
Qed.
End Output.



Lemma process_output_columns_witness :
  ∃ t T,
    Some three_column_example = Some t ∧ df (processed three_column_example) = Some T
    ∧ (∀ c, c ∈ ["review_id"; "review_text"; "rating"; "review_date"; "source"] →
            (c ∈ columns T ↔ c ∈ columns t))
    ∧ (∀ c, c ∈ ["bank_code"; "bank_name"] →
            (c ∈ columns T ↔ "bank_code" ∈ columns t ∨ "bank_name" ∈ columns t))
    ∧ (∀ c, c ∈ columns T → c ∈ desired ++ optional_extras)
    ∧ "reply_content" ∉ columns T.
Proof.
  apply (process_output_columns (env := simple_env) (Some three_column_example)).
  vm_compute. reflexivity.
Defined.

(** * The Play Store scraper (scripts/scraper.py)

    The scraper talks to the Play Store, reads the clock, sleeps and
    writes files. What the outside answers is an interface
    ([PlayStore]): the answer to the n-th request, the n-th reading of
    the clock, and whether a file can be written. What the scraper does
    to the outside is recorded in a [world]: the requests made, the
    seconds slept, and the files written. Printing is left out, and so
    are the directories that [__init__] makes: whether a later write
    succeeds is an answer of the outside. *)

Module Scraper.

(** The Python values that reach the scraper. *)
Inductive pyval :=
| PNone
| PInt (z : Z)
| PFloat (q : Q)
| PStr (s : string)
| PDatetime (t : datetime).

(** A dict that the scraper only reads, with [.get]. *)
Abbreviation pydict := (gmap string pyval).

(** A dict that the scraper builds and hands to pandas: its items in
    the order of insertion. *)
Definition record : Type := list (string * pyval).

(** [d.get(key, fallback)]: the fallback stands in for a missing key
    only, not for a key that holds [None]. *)
Definition get (d : pydict) (key : string) (fallback : pyval) : pyval :=
  default fallback (d !! key).

(** The value of a key of a record. *)
Definition field (key : string) (r : record) : option pyval :=
  (λ found : nat * (string * pyval), found.2.2)
    <$> list_find (λ kv : string * pyval, kv.1 = key) r.

(** A table of records: [pd.DataFrame(records)] takes as columns the
    keys of the records in the order of their first appearance. *)
Record frame := { frame_columns : list string; frame_rows : list record }.

Definition pd_DataFrame (records : list record) : frame :=
  {| frame_columns :=
       foldl (λ cols r, cols ++ filter (λ c, c ∉ cols) (fst <$> r)) [] records;
     frame_rows := records |}.

(** ** The outside *)

Class PlayStore := {
  (** [app(app_id, lang=..., country=...)] as the n-th request: [None]
      when it raises *)
  app : nat → string → string → string → option pydict;
  (** the list of reviews in the pair that
      [reviews(app_id, lang=..., country=..., sort=Sort.NEWEST, count=...,
      filter_score_with=None)] returns as the n-th request: [None] when
      it raises *)
  reviews : nat → string → string → string → Z → option (list pydict);
  (** [datetime.now()] at its n-th reading *)
  now : nat → datetime;
  (** whether [os.makedirs] and [to_csv] succeed on a path, when n files
      have been written *)
  writable : nat → string → bool
}.

Record world := {
  requests : nat;
  clock_reads : nat;
  sleeps : list Z;
  files : list (string * frame)
}.

Definition count_request (w : world) : world :=
  {| requests := S (requests w); clock_reads := clock_reads w;
     sleeps := sleeps w; files := files w |}.

Definition read_clock (w : world) : world :=
  {| requests := requests w; clock_reads := S (clock_reads w);
     sleeps := sleeps w; files := files w |}.

(** [time.sleep(seconds)] *)
Definition sleep (seconds : Z) (w : world) : world :=
  {| requests := requests w; clock_reads := clock_reads w;
     sleeps := sleeps w ++ [seconds]; files := files w |}.

(** What a method that writes files ends in: [os.makedirs] and
    [to_csv] are called outside any [try]. *)
Inductive outcome (A : Type) :=
| Returns (a : A) (w : world)
| Raises (w : world).
Arguments Returns {A} a w.
Arguments Raises {A} w.

Definition outcome_world {A} (o : outcome A) : world :=
  match o with
  | Returns _ w => w
  | Raises w => w
  end.

(** ** Configuration (scripts/config.py) *)

(** The entries of the configuration that an environment variable can
    set, with the value each has after [os.getenv] and [int]. *)
Record environment := {
  DATA_DIR : string;
  REVIEWS_PER_BANK : Z;
  MAX_RETRIES : Z;
  REVIEW_LANG : string;
  REVIEW_COUNTRY : string
}.

(** No variable set. *)
Definition default_environment : environment :=
  {| DATA_DIR := "data"; REVIEWS_PER_BANK := 450; MAX_RETRIES := 3;
     REVIEW_LANG := "en"; REVIEW_COUNTRY := "et" |}.

Definition SCRAPING_CONFIG (e : environment) : pydict :=
  list_to_map [ ("reviews_per_bank", PInt (REVIEWS_PER_BANK e));
                ("max_retries", PInt (MAX_RETRIES e));
                ("lang", PStr (REVIEW_LANG e));
                ("country", PStr (REVIEW_COUNTRY e)) ].

(** [os.path.join] on relative POSIX components *)
Definition path_join (a b : string) : string := a +:+ "/" +:+ b.

(** [DATA_PATHS['raw']] and [DATA_PATHS['raw_reviews']] *)
Definition raw_dir (e : environment) : string := path_join (DATA_DIR e) "raw".
Definition raw_reviews (e : environment) : string :=
  path_join (path_join (DATA_DIR e) "raw") "reviews_raw.csv".

(** config.py builds the two numbers with [int] and the two codes as
    strings, so these readings lose nothing. *)
Definition as_int (v : pyval) : Z := match v with PInt z => z | _ => 0%Z end.
Definition as_str (v : pyval) : string := match v with PStr s => s | _ => "" end.

(** ** The scraper *)

Record PlayStoreScraper := {
  app_ids : list (string * string);
  bank_names : gmap string string;
  reviews_per_bank : Z;
  lang : string;
  country : string;
  max_retries : Z
}.

(** [__init__], for the package names of [APP_IDS]. *)
Definition init (e : environment) : PlayStoreScraper :=
  {| app_ids := APP_IDS;
     bank_names := dict_of_items BANK_NAMES;
     reviews_per_bank := as_int (get (SCRAPING_CONFIG e) "reviews_per_bank" (PInt 400));
     lang := as_str (get (SCRAPING_CONFIG e) "lang" (PStr "en"));
     country := as_str (get (SCRAPING_CONFIG e) "country" (PStr "et"));
     max_retries := as_int (get (SCRAPING_CONFIG e) "max_retries" (PInt 3)) |}.

(** [self.bank_names.get(bank_code, bank_code)] *)
Definition display_name (self : PlayStoreScraper) (bank_code : string) : string :=
  default bank_code (bank_names self !! bank_code).

(** [range(n)] *)
Definition range (n : Z) : list nat := seq 0 (Z.to_nat n).

Section Methods.
Context `{store : PlayStore}.

(** [get_app_info] *)
Definition get_app_info (self : PlayStoreScraper) (app_id : string) (w : world)
  : option record * world :=
  match app (requests w) app_id (lang self) (country self) with
  | Some result =>
      (Some [ ("app_id", PStr app_id);
              ("title", get result "title" (PStr "N/A"));
              ("score", get result "score" (PInt 0));
              ("ratings", get result "ratings" (PInt 0));
              ("reviews", get result "reviews" (PInt 0));
              ("installs", get result "installs" (PStr "N/A")) ],
       count_request w)
  | None => (None, count_request w)
  end.

(** The loop of [scrape_reviews] over the attempts that are left. *)
Fixpoint attempt_loop (self : PlayStoreScraper) (app_id : string) (count : Z)
         (attempts : list nat) (w : world) : list pydict * world :=
  match attempts with
  | [] => ([], w)
  | attempt :: later =>
      match reviews (requests w) app_id (lang self) (country self) count with
      | Some result => (result, count_request w)
      | None =>
          if (Z.of_nat attempt <? max_retries self - 1)%Z
          then attempt_loop self app_id count later (sleep 5 (count_request w))
          else ([], count_request w)
      end
  end.

(** [scrape_reviews]: [count] is [None] when the caller passes [None]. *)
Definition scrape_reviews (self : PlayStoreScraper) (app_id : string) (count : option Z)
           (w : world) : list pydict * world :=
  let count := default (reviews_per_bank self) count in
  attempt_loop self app_id count (range (max_retries self)) w.

(** [process_reviews]: [datetime.now()] is an argument of [.get], so the
    clock is read for every review. *)
Fixpoint process_reviews (self : PlayStoreScraper) (reviews_data : list pydict)
         (bank_code : string) (w : world) : list record * world :=
  match reviews_data with
  | [] => ([], w)
  | review :: later =>
      let item :=
        [ ("review_id", get review "reviewId" (PStr ""));
          ("review_text", get review "content" (PStr ""));
          ("rating", get review "score" (PInt 0));
          ("review_date", get review "at" (PDatetime (now (clock_reads w))));
          ("bank_code", PStr bank_code);
          ("bank_name", PStr (display_name self bank_code));
          ("source", PStr "Google Play") ] in
      let rest := process_reviews self later bank_code (read_clock w) in
      (item :: rest.1, rest.2)
  end.

(** The first loop of [scrape_all_banks]. *)
Fixpoint fetch_app_info (self : PlayStoreScraper) (banks : list (string * string))
         (w : world) : list record * world :=
  match banks with
  | [] => ([], w)
  | (bank_code, app_id) :: later =>
      let got := get_app_info self app_id w in
      let rest := fetch_app_info self later got.2 in
      match got.1 with
      | Some info =>
          ((info ++ [ ("bank_code", PStr bank_code);
                      ("bank_name", PStr (display_name self bank_code)) ]) :: rest.1,
           rest.2)
      | None => rest
      end
  end.

(** The second loop of [scrape_all_banks]; [pause] is
    [SCRAPING_CONFIG.get('sleep_between_requests', 2)]. *)
Fixpoint scrape_banks (self : PlayStoreScraper) (pause : Z) (banks : list (string * string))
         (w : world) : list record * world :=
  match banks with
  | [] => ([], w)
  | (bank_code, app_id) :: later =>
      let scraped := scrape_reviews self app_id (Some (reviews_per_bank self)) w in
      let processed :=
        match scraped.1 with
        | [] => ([], scraped.2)
        | _ => process_reviews self scraped.1 bank_code scraped.2
        end in
      let rest := scrape_banks self pause later (sleep pause processed.2) in
      (processed.1 ++ rest.1, rest.2)
  end.

(** [os.makedirs(...)] and [df.to_csv(path, index=False)] *)
Definition to_csv (path : string) (f : frame) (w : world) : option world :=
  if writable (length (files w)) path
  then Some {| requests := requests w; clock_reads := clock_reads w;
               sleeps := sleeps w; files := files w ++ [(path, f)] |}
  else None.

(** [scrape_all_banks] *)
Definition scrape_all_banks (e : environment) (self : PlayStoreScraper) (w : world)
  : outcome frame :=
  let info := fetch_app_info self (app_ids self) w in
  let saved :=
    match info.1 with
    | [] => Some info.2
    | _ => to_csv (path_join (raw_dir e) "app_info.csv") (pd_DataFrame info.1) info.2
    end in
  match saved with
  | None => Raises info.2
  | Some w =>
      let pause := as_int (get (SCRAPING_CONFIG e) "sleep_between_requests" (PInt 2)) in
      let scraped := scrape_banks self pause (app_ids self) w in
      match scraped.1 with
      | [] => Returns (pd_DataFrame []) scraped.2
      | _ =>
          match to_csv (raw_reviews e) (pd_DataFrame scraped.1) scraped.2 with
          | Some w => Returns (pd_DataFrame scraped.1) w
          | None => Raises scraped.2
          end
      end
  end.
End Methods.


(** ** Properties of the scraper *)

(** The world after [n] more requests, [k] of them followed by the
    five seconds of a retry. *)
Definition after_attempts (n k : nat) (w : world) : world :=
  {| requests := requests w + n; clock_reads := clock_reads w;
     sleeps := sleeps w ++ replicate k 5%Z; files := files w |}.

Lemma after_attempts_0 w : after_attempts 0 0 w = w.
Proof.
  destruct w as [r c s f]. unfold after_attempts. cbn.
  by rewrite Nat.add_0_r, app_nil_r.
Qed.

Lemma after_attempts_retry n k w :
  after_attempts n k (sleep 5 (count_request w)) = after_attempts (S n) (S k) w.
Proof.
  unfold after_attempts, sleep, count_request. cbn. f_equal; [lia|].
  by rewrite <- app_assoc.
Qed.

Lemma after_attempts_request w : count_request w = after_attempts 1 0 w.
Proof.
  destruct w as [r c s f]. unfold after_attempts, count_request. cbn.
  f_equal; [lia|by rewrite app_nil_r].
Qed.

Section Properties.
Context `{store : PlayStore}.

Lemma attempt_loop_success self app_id count k :
  ∀ a n w result,
    k < n → (Z.of_nat (a + n) ≤ max_retries self)%Z →
    (∀ j, j < k →
          reviews (requests w + j) app_id (lang self) (country self) count = None) →
    reviews (requests w + k) app_id (lang self) (country self) count = Some result →
    attempt_loop self app_id count (seq a n) w = (result, after_attempts (S k) k w).
Proof.
  induction k as [|k IH]; intros a n w result Hk Hmax Hfail Hok.
  - destruct n as [|n]; [lia|]. cbn [seq attempt_loop].
    rewrite Nat.add_0_r in Hok. rewrite Hok. by rewrite after_attempts_request.
  - destruct n as [|n]; [lia|]. cbn [seq attempt_loop].
    pose proof (Hfail 0 ltac:(lia)) as H0. rewrite Nat.add_0_r in H0. rewrite H0.
    assert (Hlt : (Z.of_nat a <? max_retries self - 1)%Z = true).
    { apply Z.ltb_lt. lia. }
    rewrite Hlt.
    rewrite (IH (S a) n (sleep 5 (count_request w)) result).
    + by rewrite after_attempts_retry.
    + lia.
    + lia.
    + intros j Hj. cbn [requests sleep count_request].
      replace (S (requests w) + j) with (requests w + S j) by lia. apply Hfail. lia.
    + cbn [requests sleep count_request].
      replace (S (requests w) + k) with (requests w + S k) by lia. exact Hok.
Qed.

Lemma attempt_loop_failure self app_id count :
  ∀ n a w,
    Z.of_nat (a + n) = max_retries self →
    (∀ j, j < n →
          reviews (requests w + j) app_id (lang self) (country self) count = None) →
    attempt_loop self app_id count (seq a n) w = ([], after_attempts n (n - 1) w).
Proof.
  induction n as [|n IH]; intros a w Hmax Hfail.
  - cbn. by rewrite after_attempts_0.
  - cbn [seq attempt_loop].
    pose proof (Hfail 0 ltac:(lia)) as H0. rewrite Nat.add_0_r in H0. rewrite H0.
    destruct n as [|n].
    + assert (Hlt : (Z.of_nat a <? max_retries self - 1)%Z = false).
      { apply Z.ltb_ge. lia. }
      rewrite Hlt. by rewrite after_attempts_request.
    + assert (Hlt : (Z.of_nat a <? max_retries self - 1)%Z = true).
      { apply Z.ltb_lt. lia. }
      rewrite Hlt. rewrite (IH (S a) (sleep 5 (count_request w))).
      * rewrite after_attempts_retry. do 3 f_equal. lia.
      * lia.
      * intros j Hj. cbn [requests sleep count_request].
        replace (S (requests w) + j) with (requests w + S j) by lia. apply Hfail. lia.
Qed.

(** X19. [scrape_reviews] returns what the first request that succeeds
    returns, when that is one of the first [max_retries] requests: on
    the request number [k] (from 0) it has made [k + 1] requests and
    slept five seconds after each of the [k] that failed. The count it
    asks for is [reviews_per_bank] when the caller passes [None]. *)
Theorem scrape_reviews_first_success self app_id count w k result :
  (Z.of_nat k < max_retries self)%Z →
  (∀ j, j < k →
        reviews (requests w + j) app_id (lang self) (country self)
                (default (reviews_per_bank self) count) = None) →
  reviews (requests w + k) app_id (lang self) (country self)
          (default (reviews_per_bank self) count) = Some result →
  scrape_reviews self app_id count w = (result, after_attempts (S k) k w).
Proof.
  intros Hk Hfail Hok. unfold scrape_reviews, range.
  apply attempt_loop_success; [lia|lia|exact Hfail|exact Hok].
Qed.

(** X20. When each of the first [max_retries] requests fails,
    [scrape_reviews] gives up without raising: it returns no review,
    has made [max_retries] requests, and has slept five seconds after
    each failure but the last. With [max_retries] at 0 or below it
    makes no request at all. *)
Theorem scrape_reviews_gives_up self app_id count w :
  (∀ j, (Z.of_nat j < max_retries self)%Z →
        reviews (requests w + j) app_id (lang self) (country self)
                (default (reviews_per_bank self) count) = None) →
  scrape_reviews self app_id count w
  = ([], after_attempts (Z.to_nat (max_retries self)) (Z.to_nat (max_retries self) - 1) w)
  ∧ ((max_retries self ≤ 0)%Z → scrape_reviews self app_id count w = ([], w)).
Proof.
  intros Hfail. unfold scrape_reviews, range.
  destruct (Z.to_nat (max_retries self)) as [|n] eqn:Hn.
  - cbn. rewrite after_attempts_0. done.
  - split; [|lia]. rewrite <- Hn. apply attempt_loop_failure; [|intros j Hj; apply Hfail]; lia.
Qed.

End Properties.

(** *** The records *)

(** What holds of every record that [process_reviews] makes for a
    bank. *)
Definition record_of (self : PlayStoreScraper) (bank_code : string) (r : record) : Prop :=
  fst <$> r = desired
  ∧ field "bank_code" r = Some (PStr bank_code)
  ∧ field "bank_name" r = Some (PStr (display_name self bank_code))
  ∧ field "source" r = Some (PStr "Google Play").

(** The world after [n] more readings of the clock. *)
Definition after_readings (n : nat) (w : world) : world :=
  {| requests := requests w; clock_reads := clock_reads w + n;
     sleeps := sleeps w; files := files w |}.







Section Records.
Context `{store : PlayStore}.

Lemma process_reviews_world self reviews_data bank_code :
  ∀ w, (process_reviews self reviews_data bank_code w).2
       = after_readings (length reviews_data) w.
Proof.
  induction reviews_data as [|review later IH]; intros w.
  - destruct w as [r c s f]. unfold after_readings. cbn. by rewrite Nat.add_0_r.
  - cbn [process_reviews snd length]. rewrite IH.
    unfold after_readings, read_clock. cbn. f_equal. lia.
Qed.

Lemma process_reviews_record_of self reviews_data bank_code :
  ∀ w, Forall (record_of self bank_code) (process_reviews self reviews_data bank_code w).1.
Proof.
  induction reviews_data as [|review later IH]; intros w; [constructor|].
  cbn [process_reviews fst]. constructor; [|apply IH].
  unfold record_of. split_and!; reflexivity.
Qed.

(** X21. [process_reviews] makes one record of each review, in
    order. A record has the seven keys of [desired], the
    columns that the preprocessor asks for, in that order. A value
    that the review has under [reviewId], [content], [score] or [at]
    is handed on as it is, also when it is [None]; only a key that is
    missing gets the default, which for the date is the clock at that
    moment, read once for every review. The bank code is the one
    given, the bank name its display name or, for a code that is not
    in [bank_names], the code itself. *)
Theorem process_reviews_records self reviews_data bank_code w :
  length (process_reviews self reviews_data bank_code w).1 = length reviews_data
  ∧ (process_reviews self reviews_data bank_code w).2
    = after_readings (length reviews_data) w
  ∧ Forall (record_of self bank_code) (process_reviews self reviews_data bank_code w).1
  ∧ ∀ i review,
      reviews_data !! i = Some review →
      ∃ r, (process_reviews self reviews_data bank_code w).1 !! i = Some r
           ∧ field "review_id" r = Some (default (PStr "") (review !! "reviewId"))
           ∧ field "review_text" r = Some (default (PStr "") (review !! "content"))
           ∧ field "rating" r = Some (default (PInt 0) (review !! "score"))
           ∧ field "review_date" r
             = Some (default (PDatetime (now (clock_reads w + i))) (review !! "at")).
Proof.
  split_and!.
  - revert w. induction reviews_data as [|review later IH]; intros w; [done|].
    cbn [process_reviews fst length]. by rewrite IH.
  - apply process_reviews_world.
  - apply process_reviews_record_of.
  - revert w. induction reviews_data as [|review later IH]; intros w i rv Hi; [done|].
    cbn [process_reviews fst]. destruct i as [|i].
    + injection Hi as <-. eexists. split; [reflexivity|].
      rewrite Nat.add_0_r. split_and!; reflexivity.
    + cbn in Hi. destruct (IH (read_clock w) i rv Hi) as (r & Hr & H1 & H2 & H3 & H4).
      exists r. split; [exact Hr|]. split_and!; try done.
      rewrite H4. cbn [read_clock clock_reads].
      by replace (clock_reads w + S i) with (S (clock_reads w) + i) by lia.
Qed.








End Records.

(** *** A store for worked examples *)

Definition sample_review : pydict :=
  list_to_map [ ("reviewId", PStr "r1"); ("content", PStr "good app"); ("score", PInt 5);
                ("at", PDatetime (Timestamp (Date 2024 1 5) 36000)) ].

(** A review without id and date, whose text is [None]. *)
Definition bare_review : pydict := list_to_map [ ("content", PNone); ("score", PInt 1) ].

(** The first five requests for reviews fail, and so does every one
    for the app of BOA and the second request for the details of an
    app. *)
Definition flaky_store : PlayStore :=
  {| app := λ n _ _ _,
       if n =? 1 then None
       else Some (list_to_map [ ("title", PStr "Mobile banking"); ("score", PFloat (43 # 10)) ]);
     reviews := λ n app_id _ _ _,
       if n <? 5 then None
       else if String.eqb app_id "com.boa.boaMobileBanking" then None
       else Some [sample_review; bare_review];
     now := λ n, Timestamp (Date 2025 1 1) (Z.of_nat n);
     writable := λ _ _, true |}.

(** No request is ever answered. *)
Definition silent_store : PlayStore :=
  {| app := λ _ _ _ _, None;
     reviews := λ _ _ _ _ _, None;
     now := λ n, Timestamp (Date 2025 1 1) (Z.of_nat n);
     writable := λ _ _, true |}.

Definition start : world :=
  {| requests := 0; clock_reads := 0; sleeps := []; files := [] |}.

(** The world in which the first bank is scraped, after the three
    requests for the details of the apps. *)
Definition after_details : world :=
  {| requests := 3; clock_reads := 0; sleeps := []; files := [] |}.

Definition sample_run : outcome frame :=
  scrape_all_banks (store := flaky_store) default_environment (init default_environment) start.

Definition sample_frame : frame :=
  match sample_run with
  | Returns f _ => f
  | Raises _ => pd_DataFrame []
  end.

Lemma scrape_reviews_first_success_witness :
  scrape_reviews (store := flaky_store) (init default_environment)
    "com.combanketh.mobilebanking" None after_details
  = ([sample_review; bare_review], after_attempts 3 2 after_details).
Proof.
  apply (scrape_reviews_first_success (store := flaky_store) (init default_environment)
           "com.combanketh.mobilebanking" None after_details 2 [sample_review; bare_review]).
  - reflexivity.
  - intros j Hj. destruct j as [|[|j]]; [reflexivity|reflexivity|lia].
  - reflexivity.
Defined.

Lemma scrape_reviews_gives_up_witness :
  scrape_reviews (store := silent_store) (init default_environment)
    "com.dashen.dashensuperapp" (Some 10%Z) start
  = ([], after_attempts (Z.to_nat (max_retries (init default_environment)))
           (Z.to_nat (max_retries (init default_environment)) - 1) start)
  ∧ ((max_retries (init default_environment) ≤ 0)%Z →
     scrape_reviews (store := silent_store) (init default_environment)
       "com.dashen.dashensuperapp" (Some 10%Z) start = ([], start)).
Proof.
  apply (scrape_reviews_gives_up (store := silent_store) (init default_environment)
           "com.dashen.dashensuperapp" (Some 10%Z) start).
  intros j _. reflexivity.
Defined.


(** The run under the flaky store: two reviews of CBE, none of BOA,
    two of Dashen; ten requests; two retries of five seconds and three
    pauses of two. *)
Example sample_run_summary :
  (λ r, (field "bank_code" r, field "review_text" r, field "review_id" r))
    <$> frame_rows sample_frame
  = [ (Some (PStr "CBE"), Some (PStr "good app"), Some (PStr "r1"));
      (Some (PStr "CBE"), Some PNone, Some (PStr ""));
      (Some (PStr "Dashen"), Some (PStr "good app"), Some (PStr "r1"));
      (Some (PStr "Dashen"), Some PNone, Some (PStr "")) ]
  ∧ requests (outcome_world sample_run) = 10
  ∧ sleeps (outcome_world sample_run) = [5; 5; 2; 5; 5; 2; 2]%Z
  ∧ fst <$> files (outcome_world sample_run)
    = ["data/raw/app_info.csv"; "data/raw/reviews_raw.csv"].
Proof. vm_compute. repeat split; reflexivity. Qed.

End Scraper.

(** * From the scraper to the preprocessor *)

Section Handover.
Context `{env : PandasEnv} `{store : Scraper.PlayStore}.

End Handover.


